(** * handeye_calibration.cpp: capture buffers, relative motions, persistence

    A shallow embedding of the hand-eye calibration front end
    (src/src/handeye_calibration.cpp).  Scalars are IEEE binary64 numbers
    ([PrimFloat.float], the C++ [double]); Eigen values are records of
    scalars; the routines of Eigen, tf, camodocal and ceres that the program
    calls are parameters of the development; [std::vector] operations are
    partial where the C++ library gives them a precondition; [cv::FileStorage]
    is an ordered list of named nodes. *)

From Stdlib Require Import ZArith String Ascii List Bool Lia Floats.
From Stdlib Require Import DecimalString DecimalZ.
Import ListNotations.

Local Open Scope Z_scope.
Local Open Scope list_scope.

(** ** Partial computations

    [None] stands for a run that has no defined result here: undefined
    behaviour of the C++ abstract machine, a failed OpenCV assertion, or a
    node of a type the reader does not expect. *)

Notation "x <- c1 ;; c2" :=
  (match c1 with Some x => c2 | None => None end)
  (at level 61, c1 at next level, right associativity).

(** ** Machine integers *)

Definition INT_MAX : Z := 2147483647.

(** Conversion to a 32-bit [int], wrap-around written out. *)
Definition to_int (z : Z) : Z := (z + 2147483648) mod 4294967296 - 2147483648.

(** Conversion to a 32-bit [unsigned int]. *)
Definition to_unsigned (z : Z) : Z := z mod 4294967296.

(** [int + int], two's complement. *)
Definition int_add (a b : Z) : Z := to_int (a + b).

(** What [operator<<] prints for an integer. *)
Definition dec (z : Z) : string := NilZero.string_of_int (Z.to_int z).

(** ** Eigen values *)

Record Vector3d := mkVector3d { vx : float; vy : float; vz : float }.

Record Matrix3d := mkMatrix3d {
  r00 : float; r01 : float; r02 : float;
  r10 : float; r11 : float; r12 : float;
  r20 : float; r21 : float; r22 : float }.

Record Matrix4d := mkMatrix4d {
  m00 : float; m01 : float; m02 : float; m03 : float;
  m10 : float; m11 : float; m12 : float; m13 : float;
  m20 : float; m21 : float; m22 : float; m23 : float;
  m30 : float; m31 : float; m32 : float; m33 : float }.

(** [Eigen::Affine3d] stores a full 4x4 matrix; [matrix()] is that matrix. *)
Definition Affine3d : Type := Matrix4d.

Record Quaterniond := mkQuaterniond {
  qx : float; qy : float; qz : float; qw : float }.

Record AngleAxisd := mkAngleAxisd { angle : float; axis : Vector3d }.

Definition Zero4 : Matrix4d :=
  mkMatrix4d 0 0 0 0  0 0 0 0  0 0 0 0  0 0 0 0.

(** A default-constructed [Affine3d] of static storage: the object is
    zero-initialised, then the constructor sets the last row to 0 0 0 1 and
    touches nothing else. *)
Definition staticAffine : Affine3d :=
  mkMatrix4d 0 0 0 0  0 0 0 0  0 0 0 0  0 0 0 1.

Definition Identity4 : Matrix4d :=
  mkMatrix4d 1 0 0 0  0 1 0 0  0 0 1 0  0 0 0 1.

Definition Identity3 : Matrix3d :=
  mkMatrix3d 1 0 0  0 1 0  0 0 1.

Definition UnitX : Vector3d := mkVector3d 1 0 0.

(** [Transform::translation()]: the first three rows of the last column. *)
Definition translation (T : Affine3d) : Vector3d :=
  mkVector3d (m03 T) (m13 T) (m23 T).

(** [scalar * vector]. *)
Definition scale (s : float) (v : Vector3d) : Vector3d :=
  mkVector3d (s * vx v)%float (s * vy v)%float (s * vz v)%float.

(** The Eigen routines the program calls and whose code is Eigen's:
    [Transform::inverse()], [operator*] on transforms, [Transform::rotation()]
    (computed by Eigen from the linear part), and the conversions of a
    rotation matrix to [AngleAxisd] and to [Quaterniond]. *)
Class EigenLib := {
  inverse : Affine3d -> Affine3d;
  compose : Affine3d -> Affine3d -> Affine3d;
  rotation : Affine3d -> Matrix3d;
  toAngleAxis : Matrix3d -> AngleAxisd;
  toQuaternion : Matrix3d -> Quaterniond }.

(** Lines 29-34. *)
Definition eigenRotToEigenVector3dAngleAxis `{EigenLib} (eigenQuat : Matrix3d)
  : Vector3d :=
  let ax3d := toAngleAxis eigenQuat in
  scale (angle ax3d) (axis ax3d).

(** ** std::vector

    [pop_back] requires a non-empty vector.  Called on an empty one it leaves
    the object in no valid state ([Invalid]); every later operation on such an
    object is undefined. *)

Inductive vector (A : Type) : Type :=
| Vec (elems : list A)
| Invalid.
Arguments Vec {A} elems.
Arguments Invalid {A}.

Definition elements {A} (v : vector A) : option (list A) :=
  match v with Vec l => Some l | Invalid => None end.

Definition size {A} (v : vector A) : option nat :=
  match v with Vec l => Some (length l) | Invalid => None end.

Definition push_back {A} (v : vector A) (x : A) : option (vector A) :=
  match v with Vec l => Some (Vec (l ++ [x])) | Invalid => None end.

Definition pop_back {A} (v : vector A) : option (vector A) :=
  match v with
  | Vec [] => Some Invalid
  | Vec l => Some (Vec (removelast l))
  | Invalid => None
  end.

(** ** cv::Mat and cv::FileStorage *)

(** A matrix of doubles, stored row by row. *)
Record Mat := mkMat { rows : Z; cols : Z; data : list float }.

Inductive FileNode : Type :=
| NInt (z : Z)
| NReal (d : float)
| NMat (m : Mat).

(** The named top-level nodes of a storage, in the order they were written.
    A storage gives back the numbers it was given: what OpenCV prints for a
    double is enough to read the same double. *)
Definition FileStorage : Type := list (string * FileNode).

(** [fs[name]]: the first node of that name. *)
Fixpoint node (name : string) (fs : FileStorage) : option FileNode :=
  match fs with
  | [] => None
  | (k, v) :: rest => if String.eqb k name then Some v else node name rest
  end.

(** [cv::eigen2cv] on a 4x4 matrix. *)
Definition eigen2cv (m : Matrix4d) : Mat :=
  mkMat 4 4
    [ m00 m; m01 m; m02 m; m03 m;
      m10 m; m11 m; m12 m; m13 m;
      m20 m; m21 m; m22 m; m23 m;
      m30 m; m31 m; m32 m; m33 m ].

(** [cv::cv2eigen] into a fixed-size 4x4 matrix: the source must be 4x4. *)
Definition cv2eigen (c : Mat) : option Matrix4d :=
  if (rows c =? 4) && (cols c =? 4) then
    match data c with
    | [ a00; a01; a02; a03; a10; a11; a12; a13;
        a20; a21; a22; a23; a30; a31; a32; a33 ] =>
        Some (mkMatrix4d a00 a01 a02 a03 a10 a11 a12 a13
                         a20 a21 a22 a23 a30 a31 a32 a33)
    | _ => None
    end
  else None.

(** [fs[name] >> m] followed by [cv2eigen]: the node must hold a 4x4 matrix. *)
Definition readMatrix (name : string) (fs : FileStorage) : option Matrix4d :=
  match node name fs with
  | Some (NMat c) => cv2eigen c
  | _ => None
  end.

(** [fs[name] >> n] for an [int]: a missing node reads as 0. *)
Definition readInt (name : string) (fs : FileStorage) : option Z :=
  match node name fs with
  | None => Some 0
  | Some (NInt z) => Some z
  | Some _ => None
  end.

(** The stream [ss << prefix << i]. *)
Definition nodeName (prefix : string) (i : Z) : string := (prefix ++ dec i)%string.

(** ** writeTransformPairsToFile (lines 37-74) *)

(** The loop of lines 51-65 from index [i] on: [t1] and [t2] are what is left
    to visit.  Reading [*t2_it] past the end of [t2] is undefined, and so is
    [++i] at [INT_MAX]. *)
Fixpoint writePairs (i : Z) (t1 t2 : list Affine3d) : option FileStorage :=
  match t1 with
  | [] => Some []
  | x :: t1' =>
      match t2 with
      | [] => None
      | y :: t2' =>
          if i <? INT_MAX then
            rest <- writePairs (i + 1) t1' t2' ;;
            Some ((nodeName "T1_" i, NMat (eigen2cv x))
                  :: (nodeName "T2_" i, NMat (eigen2cv y)) :: rest)
          else None
      end
  end.

(** [opened] tells whether the storage could be opened for writing.  The
    result is the return code and the file written, if any. *)
Definition writeTransformPairsToFile (t1 t2 : list Affine3d) (opened : bool)
  : option (Z * option FileStorage) :=
  let frameCount := to_int (Z.of_nat (length t1)) in
  if opened then
    body <- writePairs 0 t1 t2 ;;
    Some (0, Some (("frameCount"%string, NInt frameCount) :: body))
  else Some (1, None).

(** ** readTransformPairsFromFile (lines 77-122) *)

(** The loop of lines 90-113: [n] iterations are left, [i] is the index;
    [t1] and [t2] are the output vectors, written through back inserters. *)
Fixpoint readPairs (n : nat) (i : Z) (fs : FileStorage)
    (t1 t2 : list Affine3d) : option (list Affine3d * list Affine3d) :=
  match n with
  | O => Some (t1, t2)
  | S n' =>
      t1e <- readMatrix (nodeName "T1_" i) fs ;;
      t2e <- readMatrix (nodeName "T2_" i) fs ;;
      readPairs n' (i + 1) fs (t1 ++ [t1e]) (t2 ++ [t2e])
  end.

(** [file] is the storage found under the file name, [None] when it cannot be
    opened.  The result is the return code and the two output vectors. *)
Definition readTransformPairsFromFile (file : option FileStorage)
    (t1 t2 : list Affine3d) : option (Z * list Affine3d * list Affine3d) :=
  match file with
  | Some fs =>
      frameCount <- readInt "frameCount" fs ;;
      r <- readPairs (Z.to_nat frameCount) 0 fs t1 t2 ;;
      Some (0, fst r, snd r)
  | None => Some (1, t1, t2)
  end.

(** ** ceres::Solver::Summary, as far as the program reads it *)

Record Summary := mkSummary {
  initial_cost : float;
  final_cost : float;
  termination_type : Z;
  num_successful_steps : Z;
  num_unsuccessful_steps : Z }.

(** ** writeCalibration (lines 238-279)

    The result is the storage written, [None] when the file cannot be opened
    (nothing is written then). *)
Definition writeCalibration `{EigenLib} (resultAffine : Affine3d)
    (opened : bool) (summary : Summary) : option FileStorage :=
  if opened then
    let resultQuat := toQuaternion (rotation resultAffine) in
    let Mat_tfpose_1_7 :=
      mkMat 1 7
        [ vx (translation resultAffine);
          vy (translation resultAffine);
          vz (translation resultAffine);
          qx resultQuat; qy resultQuat; qz resultQuat; qw resultQuat ] in
    let t1cv := eigen2cv resultAffine in
    Some
      [ ("handToEyeTF", NMat Mat_tfpose_1_7);
        ("handToEyeTransform", NMat t1cv);
        ("initial_cost", NReal (initial_cost summary));
        ("final_cost", NReal (final_cost summary));
        ("change_cost",
          NReal (initial_cost summary - final_cost summary)%float);
        ("termination_type", NInt (termination_type summary));
        ("num_successful_iteration", NInt (num_successful_steps summary));
        ("num_unsuccessful_iteration", NInt (num_unsuccessful_steps summary));
        ("num_iteration",
          NInt (int_add (num_unsuccessful_steps summary)
                        (num_successful_steps summary))) ]%string
  else None.

(** ** Collaborators outside Eigen

    tf's stamped transforms with their conversion to Eigen, and camodocal's
    solver, which returns the estimated matrix and the ceres summary. *)
Class Collaborators := {
  StampedTransform : Type;
  transformTFToEigen : StampedTransform -> Affine3d;
  estimateHandEyeScrew :
    list Vector3d -> list Vector3d -> list Vector3d -> list Vector3d ->
    bool -> Matrix4d * Summary }.

(** ** The global variables (lines 20-27) *)

Record State := mkState {
  cameraTFname : string;
  ARTagTFname : string;
  EETFname : string;
  baseTFname : string;
  firstEEInverse : Affine3d;
  firstCamInverse : Affine3d;
  firstTransform : bool;
  tvecsArm : vector Vector3d;
  rvecsArm : vector Vector3d;
  tvecsFiducial : vector Vector3d;
  rvecsFiducial : vector Vector3d;
  baseToTip : vector Affine3d;
  cameraToTag : vector Affine3d }.

(** The globals once [main] has read the four frame names: the two inverses
    are as constructed, [firstTransform] is [true], the vectors are empty. *)
Definition startup (camera ARTag EE base : string) : State :=
  mkState camera ARTag EE base staticAffine staticAffine true
          (Vec []) (Vec []) (Vec []) (Vec []) (Vec []) (Vec []).

(** ** What the program lets its user see *)

Inductive event : Type :=
| ROS_INFO (msg : string)
| ROS_WARN (msg : string)
| EstimateHandEyeScrew
    (rvecs1 tvecs1 rvecs2 tvecs2 : list Vector3d) (planarMotion : bool)
| ReportCalibration (EE camera : string) (resultAffine : Affine3d)
| CalibrationFile (written : option FileStorage)
| TransformPairsFile (code : Z) (written : option FileStorage).

(** ** estimateHandEye (lines 171-236) *)

Module EstimateHandEye.

(** The locals of lines 179-182; they hide the globals of the same names.
    A local [Eigen::Affine3d] holds nothing until it is assigned. *)
Record Locals := mkLocals {
  firstEEInverse : option Affine3d;
  firstCamInverse : option Affine3d;
  tvecsArm : list Vector3d;
  rvecsArm : list Vector3d;
  tvecsFiducial : list Vector3d;
  rvecsFiducial : list Vector3d;
  firstTransform : bool }.

Definition entry : Locals := mkLocals None None [] [] [] [] true.

Section Derive.
Context `{EigenLib}.

(** One pass through the body of the loop, lines 186-221. *)
Definition body (eigenEE eigenCam : Affine3d) (l : Locals)
  : option Locals :=
  if firstTransform l then
    Some (mkLocals (Some (inverse eigenEE)) (Some (inverse eigenCam))
                   (tvecsArm l) (rvecsArm l)
                   (tvecsFiducial l) (rvecsFiducial l) false)
  else
    EEInverse <- firstEEInverse l ;;
    CamInverse <- firstCamInverse l ;;
    let robotTipinFirstTipBase := compose EEInverse eigenEE in
    let fiducialInFirstFiducialBase := compose CamInverse eigenCam in
    Some (mkLocals
            (firstEEInverse l) (firstCamInverse l)
            (tvecsArm l ++ [translation robotTipinFirstTipBase])
            (rvecsArm l ++
               [eigenRotToEigenVector3dAngleAxis
                  (rotation robotTipinFirstTipBase)])
            (tvecsFiducial l ++ [translation fiducialInFirstFiducialBase])
            (rvecsFiducial l ++
               [eigenRotToEigenVector3dAngleAxis
                  (rotation fiducialInFirstFiducialBase)])
            false).

(** The loop of line 184 from index [i] on; [t1] and [t2] are what the two
    iterators have left.  [*t2_it] past the end and [++i] at [INT_MAX] are
    undefined. *)
Fixpoint loop (i : Z) (t1 t2 : list Affine3d) (l : Locals)
  : option Locals :=
  match t1 with
  | [] => Some l
  | eigenEE :: t1' =>
      match t2 with
      | [] => None
      | eigenCam :: t2' =>
          l' <- body eigenEE eigenCam l ;;
          if i <? INT_MAX then loop (i + 1) t1' t2' l' else None
      end
  end.

(** The four vectors handed to the solver at line 230. *)
Definition relativeMotions (baseToTip camToTag : list Affine3d)
  : option Locals :=
  loop 0 baseToTip camToTag entry.

Context `{Collaborators}.

Record Outcome := mkOutcome {
  motions : Locals;
  resultAffine : Affine3d;
  summary : Summary;
  shown : list event }.

(** The whole function.  Of the globals [g] it reads the two frame names
    that [reportCalibration] prints, and it writes none. *)
Definition estimateHandEye (g : State) (baseToTip camToTag : list Affine3d)
  : option Outcome :=
  l <- relativeMotions baseToTip camToTag ;;
  let solved :=
    estimateHandEyeScrew (rvecsArm l) (tvecsArm l)
                         (rvecsFiducial l) (tvecsFiducial l) false in
  Some (mkOutcome l (fst solved) (snd solved)
          [ EstimateHandEyeScrew (rvecsArm l) (tvecsArm l)
              (rvecsFiducial l) (tvecsFiducial l) false;
            ReportCalibration (EETFname g) (cameraTFname g)
              (fst solved) ]).
End Derive.

End EstimateHandEye.

(** ** The interactive session (lines 297-394 and 444-492) *)

Section Session.
Context `{EigenLib} `{Collaborators}.

(** The four values that lines 348-358 compute from a new pose pair and
    the stored inverses, before pushing them. *)
Record Motion := mkMotion {
  armRotation : Vector3d;
  armTranslation : Vector3d;
  fiducialRotation : Vector3d;
  fiducialTranslation : Vector3d }.

Definition relativeToFirst (s : State) (eigenEE eigenCam : Affine3d)
  : Motion :=
  let robotTipinFirstTipBase := compose (firstEEInverse s) eigenEE in
  let fiducialInFirstFiducialBase := compose (firstCamInverse s) eigenCam in
  mkMotion
    (eigenRotToEigenVector3dAngleAxis (rotation robotTipinFirstTipBase))
    (translation robotTipinFirstTipBase)
    (eigenRotToEigenVector3dAngleAxis
       (rotation fiducialInFirstFiducialBase))
    (translation fiducialInFirstFiducialBase).

(** [addFrame], lines 297-394.  [CamLookup] and [EELookup] are what the two
    waits on the transform listener deliver: [None] when the wait times
    out. *)
Definition addFrame (CamLookup EELookup : option StampedTransform)
    (s : State) : option (State * list event) :=
  let camLog :=
    match CamLookup with
    | Some _ => []
    | None =>
        [ROS_WARN ("Fail to Cam TF transform between " ++ ARTagTFname s
                   ++ " to " ++ cameraTFname s)%string]
    end in
  let eeLog :=
    match EELookup with
    | Some _ => []
    | None =>
        [ROS_WARN ("Fail to EE TF transform between " ++ baseTFname s
                   ++ " to " ++ EETFname s)%string]
    end in
  match EELookup, CamLookup with
  | Some EETransform, Some CamTransform =>
      let eigenEE := transformTFToEigen EETransform in
      let eigenCam := transformTFToEigen CamTransform in
      baseToTip' <- push_back (baseToTip s) eigenEE ;;
      cameraToTag' <- push_back (cameraToTag s) eigenCam ;;
      if firstTransform s then
        Some (mkState (cameraTFname s) (ARTagTFname s) (EETFname s)
                      (baseTFname s)
                      (inverse eigenEE) (inverse eigenCam) false
                      (tvecsArm s) (rvecsArm s)
                      (tvecsFiducial s) (rvecsFiducial s)
                      baseToTip' cameraToTag',
              [ROS_INFO "Adding first transformation."])
      else
        let m := relativeToFirst s eigenEE eigenCam in
        rvecsArm' <- push_back (rvecsArm s) (armRotation m) ;;
        tvecsArm' <- push_back (tvecsArm s) (armTranslation m) ;;
        rvecsFiducial' <- push_back (rvecsFiducial s)
                            (fiducialRotation m) ;;
        tvecsFiducial' <- push_back (tvecsFiducial s)
                            (fiducialTranslation m) ;;
        Some (mkState (cameraTFname s) (ARTagTFname s) (EETFname s)
                      (baseTFname s)
                      (firstEEInverse s) (firstCamInverse s) false
                      tvecsArm' rvecsArm' tvecsFiducial' rvecsFiducial'
                      baseToTip' cameraToTag',
              [ROS_INFO "Hand Eye Calibration Transform Pair Added"])
  | _, _ =>
      Some (s, camLog ++ eeLog ++
               [ROS_WARN "Fail to get one/both of needed TF transform"])
  end.

(** The [d] branch, lines 453-464. *)
Definition deleteLastFrame (s : State) : option (State * list event) :=
  n <- size (rvecsArm s) ;;
  rvecsArm' <- pop_back (rvecsArm s) ;;
  tvecsArm' <- pop_back (tvecsArm s) ;;
  rvecsFiducial' <- pop_back (rvecsFiducial s) ;;
  tvecsFiducial' <- pop_back (tvecsFiducial s) ;;
  baseToTip' <- pop_back (baseToTip s) ;;
  cameraToTag' <- pop_back (cameraToTag s) ;;
  Some (mkState (cameraTFname s) (ARTagTFname s) (EETFname s) (baseTFname s)
                (firstEEInverse s) (firstCamInverse s) (firstTransform s)
                tvecsArm' rvecsArm' tvecsFiducial' rvecsFiducial'
                baseToTip' cameraToTag',
        [ROS_INFO
           ("Deleted last frame transformation. Number of Current "
            ++ "Transformations: "
            ++ dec (to_unsigned (Z.of_nat n)))%string]).

(** The [q] branch, lines 465-486; [opened] tells whether the result file
    can be opened for writing. *)
Definition calibrate (opened : bool) (s : State) : option (list event) :=
  rv <- elements (rvecsArm s) ;;
  tv <- elements (tvecsArm s) ;;
  rf <- elements (rvecsFiducial s) ;;
  tf <- elements (tvecsFiducial s) ;;
  let few :=
    if (Z.of_nat (length rv) <? 5) then
      [ ROS_WARN "Number of calibration transform pairs < 5.";
        ROS_INFO "Node Quit" ]
    else [] in
  let solved := estimateHandEyeScrew rv tv rf tf false in
  Some (few ++
        [ ROS_INFO "Calculating Calibration...";
          EstimateHandEyeScrew rv tv rf tf false;
          ReportCalibration (EETFname s) (cameraTFname s) (fst solved);
          CalibrationFile (writeCalibration (fst solved) opened
                                            (snd solved)) ]).

(** What one turn of the loop receives from outside. *)
Record Turn := mkTurn {
  pressed : Z;
  CamLookup : option StampedTransform;
  EELookup : option StampedTransform;
  pairsFileOpens : bool;
  resultFileOpens : bool }.

Definition chr (c : ascii) : Z := Z.of_nat (nat_of_ascii c).

(** One turn of the loop of line 444: the new globals, what was shown, and
    whether the loop was left ([break]). *)
Definition turn (t : Turn) (s : State)
  : option (State * list event * bool) :=
  let k := pressed t in
  if (k =? chr "s") || (k =? chr "S") then
    r <- addFrame (CamLookup t) (EELookup t) s ;;
    b <- elements (baseToTip (fst r)) ;;
    c <- elements (cameraToTag (fst r)) ;;
    w <- writeTransformPairsToFile b c (pairsFileOpens t) ;;
    Some (fst r, snd r ++ [TransformPairsFile (fst w) (snd w)], false)
  else if (k =? chr "d") || (k =? chr "D") then
    r <- deleteLastFrame s ;;
    Some (fst r, snd r, false)
  else if (k =? chr "q") || (k =? chr "Q") then
    shown <- calibrate (resultFileOpens t) s ;;
    Some (s, shown, true)
  else Some (s, [], false).

(** The loop over the key presses of a session. *)
Fixpoint session (ts : list Turn) (s : State)
  : option (State * list event) :=
  match ts with
  | [] => Some (s, [])
  | t :: ts' =>
      r <- turn t s ;;
      if snd r then Some (fst (fst r), snd (fst r))
      else
        r' <- session ts' (fst (fst r)) ;;
        Some (fst r', snd (fst r) ++ snd r')
  end.

(** The three key presses, with what the outside delivers on each. *)
Definition capture (CamTransform EETransform : StampedTransform) : Turn :=
  mkTurn (chr "s") (Some CamTransform) (Some EETransform) true true.

Definition undo : Turn := mkTurn (chr "d") None None true true.

Definition finalize : Turn := mkTurn (chr "q") None None true true.
End Session.

(** ** Predicates used in the statements *)

Definition finiteVector (v : Vector3d) : bool :=
  is_finite (vx v) && is_finite (vy v) && is_finite (vz v).

(** Every component compares equal to zero (so none is a NaN). *)
Definition zeroVector (v : Vector3d) : bool :=
  (vx v =? 0)%float && (vy v =? 0)%float && (vz v =? 0)%float.

Definition hasNaN (v : Vector3d) : bool :=
  is_nan (vx v) || is_nan (vy v) || is_nan (vz v).

(** The sizes of the six capture buffers agree with the data model: the two
    pose buffers hold [n] poses each, the four motion buffers hold one entry
    fewer each, or all six are empty. *)
Definition consistent (s : State) : bool :=
  match size (baseToTip s), size (cameraToTag s),
        size (rvecsArm s), size (tvecsArm s),
        size (rvecsFiducial s), size (tvecsFiducial s) with
  | Some n, Some n', Some a, Some b, Some c, Some d =>
      Nat.eqb n' n && Nat.eqb b a && Nat.eqb c a && Nat.eqb d a
      && (Nat.eqb n (S a) || (Nat.eqb n 0 && Nat.eqb a 0))
  | _, _, _, _, _, _ => false
  end.

(** The entries that a pose pair [p] adds to the four vectors of
    estimateHandEye, given the inverses [fe] and [fc] of the reference. *)
Definition armT `{EigenLib} (fe : Affine3d) (p : Affine3d * Affine3d)
  : Vector3d :=
  translation (compose fe (fst p)).

Definition armR `{EigenLib} (fe : Affine3d) (p : Affine3d * Affine3d)
  : Vector3d :=
  eigenRotToEigenVector3dAngleAxis (rotation (compose fe (fst p))).

Definition camT `{EigenLib} (fc : Affine3d) (p : Affine3d * Affine3d)
  : Vector3d :=
  translation (compose fc (snd p)).

Definition camR `{EigenLib} (fc : Affine3d) (p : Affine3d * Affine3d)
  : Vector3d :=
  eigenRotToEigenVector3dAngleAxis (rotation (compose fc (snd p))).

(** The globals hold the pose pairs [ps] and what a run of captures leaves
    with them: nothing else when [ps] is empty; otherwise the inverses of the
    first pair and, for each later pair, its motion relative to the first. *)
Definition tracked `{EigenLib} (ps : list (Affine3d * Affine3d)) (s : State)
  : Prop :=
  baseToTip s = Vec (map fst ps)
  /\ cameraToTag s = Vec (map snd ps)
  /\ match ps with
     | [] =>
         firstTransform s = true
         /\ tvecsArm s = Vec [] /\ rvecsArm s = Vec []
         /\ tvecsFiducial s = Vec [] /\ rvecsFiducial s = Vec []
     | p0 :: rest =>
         firstTransform s = false
         /\ firstEEInverse s = inverse (fst p0)
         /\ firstCamInverse s = inverse (snd p0)
         /\ tvecsArm s = Vec (map (armT (inverse (fst p0))) rest)
         /\ rvecsArm s = Vec (map (armR (inverse (fst p0))) rest)
         /\ tvecsFiducial s = Vec (map (camT (inverse (snd p0))) rest)
         /\ rvecsFiducial s = Vec (map (camR (inverse (snd p0))) rest)
     end.

(** The globals are as a run of captures leaves them, or a motion buffer was
    popped while empty. *)
Definition trackedOrBroken `{EigenLib} (s : State) : Prop :=
  (exists ps, tracked ps s) \/ rvecsArm s = Invalid.

(** The key of a turn is the one that leaves the loop. *)
Definition isQuit `{Collaborators} (t : Turn) : bool :=
  (pressed t =? chr "q") || (pressed t =? chr "Q").

(** The key of a turn is one of the six the loop of line 444 acts on. *)
Definition isCommand `{Collaborators} (t : Turn) : bool :=
  (pressed t =? chr "s") || (pressed t =? chr "S")
  || (pressed t =? chr "d") || (pressed t =? chr "D")
  || (pressed t =? chr "q") || (pressed t =? chr "Q").

(** From [s] to [s'] the four frame names are kept, and so is the reference
    once it is set. *)
Definition keepsSetup (s s' : State) : Prop :=
  cameraTFname s' = cameraTFname s
  /\ ARTagTFname s' = ARTagTFname s
  /\ EETFname s' = EETFname s
  /\ baseTFname s' = baseTFname s
  /\ (firstTransform s = false ->
      firstTransform s' = false
      /\ firstEEInverse s' = firstEEInverse s
      /\ firstCamInverse s' = firstCamInverse s).

(** The key of a turn is the one that undoes. *)
Definition isUndo `{Collaborators} (t : Turn) : bool :=
  (pressed t =? chr "d") || (pressed t =? chr "D").

(** ** Sample collaborators

    Plain double-precision versions of the library routines, for running the
    definitions above on concrete poses.  The theorems below hold for every
    implementation of [EigenLib] and [Collaborators]; these are not Eigen's
    code. *)

Module Sample.
Local Open Scope float_scope.
#[local] Set Warnings "-inexact-float".

Definition dot4 (a b c d e f g h : float) : float :=
  a * e + b * f + c * g + d * h.

(** The matrix product. *)
Definition product (a b : Matrix4d) : Matrix4d :=
  mkMatrix4d
    (dot4 (m00 a) (m01 a) (m02 a) (m03 a) (m00 b) (m10 b) (m20 b) (m30 b))
    (dot4 (m00 a) (m01 a) (m02 a) (m03 a) (m01 b) (m11 b) (m21 b) (m31 b))
    (dot4 (m00 a) (m01 a) (m02 a) (m03 a) (m02 b) (m12 b) (m22 b) (m32 b))
    (dot4 (m00 a) (m01 a) (m02 a) (m03 a) (m03 b) (m13 b) (m23 b) (m33 b))
    (dot4 (m10 a) (m11 a) (m12 a) (m13 a) (m00 b) (m10 b) (m20 b) (m30 b))
    (dot4 (m10 a) (m11 a) (m12 a) (m13 a) (m01 b) (m11 b) (m21 b) (m31 b))
    (dot4 (m10 a) (m11 a) (m12 a) (m13 a) (m02 b) (m12 b) (m22 b) (m32 b))
    (dot4 (m10 a) (m11 a) (m12 a) (m13 a) (m03 b) (m13 b) (m23 b) (m33 b))
    (dot4 (m20 a) (m21 a) (m22 a) (m23 a) (m00 b) (m10 b) (m20 b) (m30 b))
    (dot4 (m20 a) (m21 a) (m22 a) (m23 a) (m01 b) (m11 b) (m21 b) (m31 b))
    (dot4 (m20 a) (m21 a) (m22 a) (m23 a) (m02 b) (m12 b) (m22 b) (m32 b))
    (dot4 (m20 a) (m21 a) (m22 a) (m23 a) (m03 b) (m13 b) (m23 b) (m33 b))
    (dot4 (m30 a) (m31 a) (m32 a) (m33 a) (m00 b) (m10 b) (m20 b) (m30 b))
    (dot4 (m30 a) (m31 a) (m32 a) (m33 a) (m01 b) (m11 b) (m21 b) (m31 b))
    (dot4 (m30 a) (m31 a) (m32 a) (m33 a) (m02 b) (m12 b) (m22 b) (m32 b))
    (dot4 (m30 a) (m31 a) (m32 a) (m33 a) (m03 b) (m13 b) (m23 b) (m33 b)).

(** The inverse of a rigid motion: the transposed rotation, and the
    translation carried back through it. *)
Definition rigidInverse (a : Matrix4d) : Matrix4d :=
  mkMatrix4d
    (m00 a) (m10 a) (m20 a)
    (- (m00 a * m03 a + m10 a * m13 a + m20 a * m23 a))
    (m01 a) (m11 a) (m21 a)
    (- (m01 a * m03 a + m11 a * m13 a + m21 a * m23 a))
    (m02 a) (m12 a) (m22 a)
    (- (m02 a * m03 a + m12 a * m13 a + m22 a * m23 a))
    0 0 0 1.

(** The linear part, which is the rotation of a rigid motion. *)
Definition linear (a : Matrix4d) : Matrix3d :=
  mkMatrix3d (m00 a) (m01 a) (m02 a)
             (m10 a) (m11 a) (m12 a)
             (m20 a) (m21 a) (m22 a).

(** Rotation matrix to unit quaternion, choosing the largest pivot. *)
Definition quaternion (r : Matrix3d) : Quaterniond :=
  let t := r00 r + r11 r + r22 r in
  if 0 <? t then
    let u := sqrt (t + 1) in
    let v := 0.5 / u in
    mkQuaterniond ((r21 r - r12 r) * v) ((r02 r - r20 r) * v)
                  ((r10 r - r01 r) * v) (0.5 * u)
  else if (r11 r <=? r00 r) && (r22 r <=? r00 r) then
    let u := sqrt (r00 r - r11 r - r22 r + 1) in
    let v := 0.5 / u in
    mkQuaterniond (0.5 * u) ((r10 r + r01 r) * v)
                  ((r20 r + r02 r) * v) ((r21 r - r12 r) * v)
  else if r22 r <=? r11 r then
    let u := sqrt (r11 r - r22 r - r00 r + 1) in
    let v := 0.5 / u in
    mkQuaterniond ((r10 r + r01 r) * v) (0.5 * u)
                  ((r21 r + r12 r) * v) ((r02 r - r20 r) * v)
  else
    let u := sqrt (r22 r - r00 r - r11 r + 1) in
    let v := 0.5 / u in
    mkQuaterniond ((r20 r + r02 r) * v) ((r21 r + r12 r) * v)
                  (0.5 * u) ((r10 r - r01 r) * v).

(** The arc tangent on [0, 1], to about five decimals. *)
Definition arctan01 (x : float) : float :=
  let x2 := x * x in
  x * (0.9998660 + x2 * (-0.3302995 + x2 * (0.1801410
       + x2 * (-0.0851330 + x2 * 0.0208351)))).

(** [atan2 y x] for [y] and [x] not negative and not both zero. *)
Definition arctan2 (y x : float) : float :=
  if y <=? x then arctan01 (y / x)
  else 1.5707963267948966 - arctan01 (x / y).

(** Unit quaternion to angle and axis; a vanishing vector part gives the
    angle zero about the x axis. *)
Definition angleAxis (r : Matrix3d) : AngleAxisd :=
  let q := quaternion r in
  let n := sqrt (qx q * qx q + qy q * qy q + qz q * qz q) in
  if n =? 0 then mkAngleAxisd 0 UnitX
  else
    let n' := if qw q <? 0 then - n else n in
    mkAngleAxisd (2 * arctan2 n (abs (qw q)))
                 (mkVector3d (qx q / n') (qy q / n') (qz q / n')).

#[export] Instance eigen : EigenLib := {
  inverse := rigidInverse;
  compose := product;
  rotation := linear;
  toAngleAxis := angleAxis;
  toQuaternion := quaternion }.

(** A stand-in for the solver: it answers the identity and an empty
    summary whatever it is given. *)
#[export] Instance collaborators : Collaborators := {
  StampedTransform := Affine3d;
  transformTFToEigen := fun t => t;
  estimateHandEyeScrew := fun _ _ _ _ _ =>
    (Identity4, mkSummary 0 0 0 0 0) }.

(** A quarter turn about the z axis, moved by (1, 2, 3). *)
Definition quarterTurnZ : Affine3d :=
  mkMatrix4d 0 (-1) 0 1
             1 0 0 2
             0 0 1 3
             0 0 0 1.

(** A pure translation by (0.5, 0, -2). *)
Definition shift : Affine3d :=
  mkMatrix4d 1 0 0 0.5
             0 1 0 0
             0 0 1 (-2)
             0 0 0 1.
(** A pair file holding one pair. *)
Definition onePairFile : FileStorage :=
  [ ("frameCount", NInt 1);
    ("T1_0", NMat (eigen2cv quarterTurnZ));
    ("T2_0", NMat (eigen2cv shift)) ]%string.

(** A session of two captures from the start, the state it ends in and what
    it shows. *)
Definition twoCaptures : list Turn :=
  [ capture Identity4 Identity4; capture shift quarterTurnZ ].

Definition atStart : State :=
  startup "/camera_2_link" "/camera_2/ar_marker_0" "/ee_fixed_link"
          "/base_link".

Definition afterTwoCaptures : State :=
  Eval vm_compute in
    match session twoCaptures atStart with
    | Some r => fst r
    | None => atStart
    end.

Definition shownTwoCaptures : list event :=
  Eval vm_compute in
    match session twoCaptures atStart with
    | Some r => snd r
    | None => []
    end.
End Sample.


(** * Properties *)

(** ** Machine integers and printed indices *)

Lemma to_int_small (z : Z) : 0 <= z <= INT_MAX -> to_int z = z.
Proof.
  unfold to_int, INT_MAX. intros Hz.
  rewrite Z.mod_small by lia. lia.
Qed.

Lemma int_add_small (a b : Z) :
  0 <= a -> 0 <= b -> a + b <= INT_MAX -> int_add a b = a + b.
Proof.
  intros Ha Hb Hab. unfold int_add. apply to_int_small. lia.
Qed.

(** Two integers that print alike are equal. *)
Lemma dec_inj (a b : Z) : dec a = dec b -> a = b.
Proof.
  unfold dec. intros E.
  assert (N : forall z, Z.to_int z <> Decimal.Pos Decimal.Nil
                        /\ Z.to_int z <> Decimal.Neg Decimal.Nil).
  { intros z; split; intros K; pose proof (f_equal Z.of_int K) as K';
      rewrite DecimalZ.of_to in K'; cbn in K'; subst z; discriminate K. }
  pose proof (NilZero.isi (Z.to_int a) (proj1 (N a)) (proj2 (N a))) as Ia.
  pose proof (NilZero.isi (Z.to_int b) (proj1 (N b)) (proj2 (N b))) as Ib.
  rewrite E in Ia. rewrite Ia in Ib. injection Ib as Eab.
  apply (f_equal Z.of_int) in Eab. now rewrite !DecimalZ.of_to in Eab.
Qed.

Lemma append_inj (p a b : string) : (p ++ a = p ++ b)%string -> a = b.
Proof.
  induction p as [|c p IH]; cbn; intros E; [exact E|].
  injection E as E. now apply IH.
Qed.

Lemma nodeName_inj (p : string) (i j : Z) :
  nodeName p i = nodeName p j -> i = j.
Proof. unfold nodeName. intros E. apply dec_inj. eapply append_inj, E. Qed.

Lemma nodeName_same (p : string) (i : Z) :
  String.eqb (nodeName p i) (nodeName p i) = true.
Proof. apply String.eqb_refl. Qed.

Lemma nodeName_other (p : string) (i j : Z) :
  i <> j -> String.eqb (nodeName p i) (nodeName p j) = false.
Proof.
  intros D. apply String.eqb_neq. intros E. apply D.
  eapply nodeName_inj, E.
Qed.

Lemma T1_not_T2 (i j : Z) :
  String.eqb (nodeName "T1_" i) (nodeName "T2_" j) = false.
Proof. apply String.eqb_neq. unfold nodeName. cbn. intros E. discriminate E. Qed.

Lemma T2_not_T1 (i j : Z) :
  String.eqb (nodeName "T2_" i) (nodeName "T1_" j) = false.
Proof. apply String.eqb_neq. unfold nodeName. cbn. intros E. discriminate E. Qed.

(** ** The pair file *)

Lemma cv2eigen_eigen2cv (m : Matrix4d) : cv2eigen (eigen2cv m) = Some m.
Proof. destruct m. reflexivity. Qed.

(** The loop of the writer runs to its end on paired vectors that an [int]
    can index. *)
Lemma writePairs_defined (t1 t2 : list Affine3d) :
  forall i, length t1 = length t2 -> i + Z.of_nat (length t1) <= INT_MAX ->
            exists body, writePairs i t1 t2 = Some body.
Proof.
  revert t2. induction t1 as [|x t1 IH]; intros [|y t2] i L B;
    cbn [writePairs]; try discriminate L.
  - now exists [].
  - cbn [length] in L, B. injection L as L.
    destruct (IH t2 (i + 1) L) as [rest R]; [lia|].
    assert (Hi : (i <? INT_MAX) = true) by (apply Z.ltb_lt; lia).
    rewrite Hi, R. eauto.
Qed.

(** Where the writer leaves the [k]-th matrix of each vector. *)
Lemma writePairs_node (t1 t2 : list Affine3d) :
  forall i body k,
    writePairs i t1 t2 = Some body ->
    (forall x, nth_error t1 k = Some x ->
       node (nodeName "T1_" (i + Z.of_nat k)) body = Some (NMat (eigen2cv x)))
    /\ (forall y, (k < length t1)%nat -> nth_error t2 k = Some y ->
       node (nodeName "T2_" (i + Z.of_nat k)) body = Some (NMat (eigen2cv y))).
Proof.
  revert t2. induction t1 as [|x t1 IH]; intros [|y t2] i body k W;
    cbn [writePairs] in W.
  - injection W as <-. split; [intros ? E|intros ? L E];
      destruct k; cbn in *; try discriminate; lia.
  - injection W as <-. split; [intros ? E|intros ? L E];
      destruct k; cbn in *; try discriminate; lia.
  - discriminate W.
  - destruct (i <? INT_MAX); [|discriminate W].
    destruct (writePairs (i + 1) t1 t2) as [rest|] eqn:R; [|discriminate W].
    injection W as <-.
    destruct k as [|k].
    + rewrite Z.add_0_r. cbn [nth_error node]. split.
      * intros x' E. injection E as <-. now rewrite nodeName_same.
      * intros y' _ E. injection E as <-.
        now rewrite T1_not_T2, nodeName_same.
    + destruct (IH t2 (i + 1) rest k R) as [A B].
      replace (i + Z.of_nat (S k)) with (i + 1 + Z.of_nat k) by lia.
      cbn [nth_error node length]. split.
      * intros x' E. rewrite nodeName_other by lia.
        rewrite T2_not_T1. now apply A.
      * intros y' L E. rewrite T1_not_T2.
        rewrite nodeName_other by lia. apply B; [lia|exact E].
Qed.

(** The reader's loop, when the storage holds the matrices [l1] and [l2]
    under the names it asks for: they are appended to the output vectors. *)
Lemma readPairs_appends (fs : FileStorage) (l1 l2 : list Affine3d) :
  forall i t1 t2,
    length l2 = length l1 ->
    (forall k x, nth_error l1 k = Some x ->
       readMatrix (nodeName "T1_" (i + Z.of_nat k)) fs = Some x) ->
    (forall k y, nth_error l2 k = Some y ->
       readMatrix (nodeName "T2_" (i + Z.of_nat k)) fs = Some y) ->
    readPairs (length l1) i fs t1 t2 = Some (t1 ++ l1, t2 ++ l2).
Proof.
  revert l2. induction l1 as [|x l1 IH]; intros [|y l2] i t1 t2 L H1 H2;
    try discriminate L.
  - cbn. now rewrite !app_nil_r.
  - cbn [length readPairs].
    pose proof (H1 0%nat x eq_refl) as E1. pose proof (H2 0%nat y eq_refl) as E2.
    rewrite Z.add_0_r in E1, E2. rewrite E1, E2. cbv beta iota.
    replace (t1 ++ x :: l1) with ((t1 ++ [x]) ++ l1)
      by now rewrite <- app_assoc.
    replace (t2 ++ y :: l2) with ((t2 ++ [y]) ++ l2)
      by now rewrite <- app_assoc.
    apply IH.
    + now injection L.
    + intros k x' E. replace (i + 1 + Z.of_nat k) with (i + Z.of_nat (S k))
        by lia. now apply H1.
    + intros k y' E. replace (i + 1 + Z.of_nat k) with (i + Z.of_nat (S k))
        by lia. now apply H2.
Qed.

Lemma frameCount_first (n : Z) (body : FileStorage) :
  readInt "frameCount" (("frameCount"%string, NInt n) :: body) = Some n.
Proof. reflexivity. Qed.

Lemma readMatrix_after_frameCount (p : string) (i n : Z) (body : FileStorage) :
  p = "T1_"%string \/ p = "T2_"%string ->
  readMatrix (nodeName p i) (("frameCount"%string, NInt n) :: body)
  = readMatrix (nodeName p i) body.
Proof. intros [-> | ->]; reflexivity. Qed.

(** C6. A sequence of pose pairs written by [writeTransformPairsToFile] and
    read back by [readTransformPairsFromFile] into empty vectors comes back
    with the same number of pairs and the same matrices, entry for entry
    (equal, hence within any tolerance).  The sequence is one an [int] can
    count, which is where lines 43 and 51 are defined. *)
Theorem pair_file_round_trip (t1 t2 : list Affine3d) :
  length t1 = length t2 ->
  Z.of_nat (length t1) <= INT_MAX ->
  exists fs,
    writeTransformPairsToFile t1 t2 true = Some (0, Some fs)
    /\ readTransformPairsFromFile (Some fs) [] [] = Some (0, t1, t2).
Proof.
  intros L B.
  destruct (writePairs_defined t1 t2 0 L B) as [body W].
  exists (("frameCount"%string, NInt (Z.of_nat (length t1))) :: body). split.
  - unfold writeTransformPairsToFile. rewrite W.
    now rewrite to_int_small by lia.
  - unfold readTransformPairsFromFile.
    rewrite frameCount_first, Nat2Z.id.
    rewrite (readPairs_appends _ t1 t2 0 [] []); [reflexivity|now symmetry| |].
    + intros k x E. rewrite readMatrix_after_frameCount by now left.
      unfold readMatrix.
      rewrite (proj1 (writePairs_node t1 t2 0 body k W) x E).
      apply cv2eigen_eigen2cv.
    + intros k y E. rewrite readMatrix_after_frameCount by now right.
      unfold readMatrix.
      assert (K : (k < length t1)%nat).
      { rewrite L. apply nth_error_Some. now rewrite E. }
      rewrite (proj2 (writePairs_node t1 t2 0 body k W) y K E).
      apply cv2eigen_eigen2cv.
Qed.

Lemma pair_file_round_trip_witness :
  exists fs,
    writeTransformPairsToFile [Identity4; Sample.quarterTurnZ]
                              [Sample.shift; Identity4] true
    = Some (0, Some fs)
    /\ readTransformPairsFromFile (Some fs) [] []
       = Some (0, [Identity4; Sample.quarterTurnZ],
                  [Sample.shift; Identity4]).
Proof.
  apply (pair_file_round_trip [Identity4; Sample.quarterTurnZ]
                              [Sample.shift; Identity4]).
  - reflexivity.
  - vm_compute. discriminate.
Defined.

(** C10. [readTransformPairsFromFile] appends: when the storage holds the
    count [frameCount] and, under the names T1_k and T2_k, the matrices
    [l1] and [l2], the output vectors come back as [t1 ++ l1] and [t2 ++ l2]
    with return code 0, whatever [t1] and [t2] held; when the file cannot be
    opened the return code is 1 and both vectors are as they were. *)
Theorem readTransformPairsFromFile_appends
    (fs : FileStorage) (frameCount : Z) (l1 l2 t1 t2 : list Affine3d) :
  readInt "frameCount" fs = Some frameCount ->
  length l1 = Z.to_nat frameCount ->
  length l2 = Z.to_nat frameCount ->
  (forall k x, nth_error l1 k = Some x ->
     readMatrix (nodeName "T1_" (Z.of_nat k)) fs = Some x) ->
  (forall k y, nth_error l2 k = Some y ->
     readMatrix (nodeName "T2_" (Z.of_nat k)) fs = Some y) ->
  readTransformPairsFromFile (Some fs) t1 t2 = Some (0, t1 ++ l1, t2 ++ l2)
  /\ readTransformPairsFromFile None t1 t2 = Some (1, t1, t2).
Proof.
  intros C L1 L2 H1 H2. split; [|reflexivity].
  unfold readTransformPairsFromFile. rewrite C, <- L1.
  rewrite (readPairs_appends fs l1 l2 0 t1 t2); [reflexivity| | |].
  - now rewrite L1, L2.
  - intros k x E. now apply H1.
  - intros k y E. now apply H2.
Qed.

Lemma readTransformPairsFromFile_appends_witness :
  readTransformPairsFromFile (Some Sample.onePairFile) [Identity4] [Zero4; Identity4]
  = Some (0, [Identity4] ++ [Sample.quarterTurnZ],
             [Zero4; Identity4] ++ [Sample.shift])
  /\ readTransformPairsFromFile None [Identity4] [Zero4; Identity4]
     = Some (1, [Identity4], [Zero4; Identity4]).
Proof.
  apply (readTransformPairsFromFile_appends Sample.onePairFile 1
           [Sample.quarterTurnZ] [Sample.shift]).
  - reflexivity.
  - reflexivity.
  - reflexivity.
  - intros [|[|k]] x E; cbn in E; try discriminate E.
    injection E as <-. reflexivity.
  - intros [|[|k]] y E; cbn in E; try discriminate E.
    injection E as <-. reflexivity.
Defined.

(** ** The relative motions of estimateHandEye *)

Section Motions.
Context `{EigenLib}.

(** Once the reference is set, every further pair adds one entry to each of
    the four vectors. *)
Lemma loop_after_first (fe fc : Affine3d) (ps : list (Affine3d * Affine3d)) :
  forall i tA rA tF rF,
    i + Z.of_nat (length ps) <= INT_MAX ->
    EstimateHandEye.loop i (map fst ps) (map snd ps)
      (EstimateHandEye.mkLocals (Some fe) (Some fc) tA rA tF rF false)
    = Some (EstimateHandEye.mkLocals (Some fe) (Some fc)
              (tA ++ map (armT fe) ps) (rA ++ map (armR fe) ps)
              (tF ++ map (camT fc) ps) (rF ++ map (camR fc) ps) false).
Proof.
  induction ps as [|p ps IH]; intros i tA rA tF rF B.
  - cbn. now rewrite !app_nil_r.
  - cbn [map EstimateHandEye.loop length] in *.
    unfold EstimateHandEye.body. cbn [EstimateHandEye.firstTransform
      EstimateHandEye.firstEEInverse EstimateHandEye.firstCamInverse
      EstimateHandEye.tvecsArm EstimateHandEye.rvecsArm
      EstimateHandEye.tvecsFiducial EstimateHandEye.rvecsFiducial].
    assert (Hi : (i <? INT_MAX) = true) by (apply Z.ltb_lt; lia).
    rewrite Hi, IH by lia.
    now rewrite <- !app_assoc.
Qed.

Lemma relativeMotions_pairs (p0 : Affine3d * Affine3d)
    (ps : list (Affine3d * Affine3d)) :
  Z.of_nat (length (p0 :: ps)) <= INT_MAX ->
  EstimateHandEye.relativeMotions (map fst (p0 :: ps)) (map snd (p0 :: ps))
  = Some (EstimateHandEye.mkLocals
            (Some (inverse (fst p0))) (Some (inverse (snd p0)))
            (map (armT (inverse (fst p0))) ps)
            (map (armR (inverse (fst p0))) ps)
            (map (camT (inverse (snd p0))) ps)
            (map (camR (inverse (snd p0))) ps) false).
Proof.
  intros B. unfold EstimateHandEye.relativeMotions.
  cbn [map EstimateHandEye.loop length] in *.
  unfold EstimateHandEye.body, EstimateHandEye.entry.
  cbn [EstimateHandEye.firstTransform EstimateHandEye.tvecsArm
       EstimateHandEye.rvecsArm EstimateHandEye.tvecsFiducial
       EstimateHandEye.rvecsFiducial].
  change (0 <? INT_MAX) with true. cbv iota.
  now rewrite loop_after_first by lia.
Qed.

(** C1. For a non-empty sequence of N pose pairs (one an [int] can count, as
    line 184 needs), the loop of estimateHandEye ends with exactly N-1 entries
    in each of the four vectors; and when there is a second pair, the first
    entries are the axis-angle vector and the translation of
    poseA[0]^-1 * poseA[1] and of poseB[0]^-1 * poseB[1]. *)
Theorem relativeMotions_count_and_first
    (pairs : list (Affine3d * Affine3d)) :
  pairs <> [] ->
  Z.of_nat (length pairs) <= INT_MAX ->
  exists l,
    EstimateHandEye.relativeMotions (map fst pairs) (map snd pairs) = Some l
    /\ length (EstimateHandEye.rvecsArm l) = (length pairs - 1)%nat
    /\ length (EstimateHandEye.tvecsArm l) = (length pairs - 1)%nat
    /\ length (EstimateHandEye.rvecsFiducial l) = (length pairs - 1)%nat
    /\ length (EstimateHandEye.tvecsFiducial l) = (length pairs - 1)%nat
    /\ forall A0 B0 A1 B1 rest,
         pairs = (A0, B0) :: (A1, B1) :: rest ->
         hd_error (EstimateHandEye.rvecsArm l)
         = Some (eigenRotToEigenVector3dAngleAxis
                   (rotation (compose (inverse A0) A1)))
         /\ hd_error (EstimateHandEye.tvecsArm l)
            = Some (translation (compose (inverse A0) A1))
         /\ hd_error (EstimateHandEye.rvecsFiducial l)
            = Some (eigenRotToEigenVector3dAngleAxis
                      (rotation (compose (inverse B0) B1)))
         /\ hd_error (EstimateHandEye.tvecsFiducial l)
            = Some (translation (compose (inverse B0) B1)).
Proof.
  intros N B. destruct pairs as [|p0 ps]; [now elim N|].
  eexists. split; [now apply relativeMotions_pairs|].
  cbn [EstimateHandEye.rvecsArm EstimateHandEye.tvecsArm
       EstimateHandEye.rvecsFiducial EstimateHandEye.tvecsFiducial length].
  rewrite !length_map.
  replace (S (length ps) - 1)%nat with (length ps) by lia.
  repeat (split; [reflexivity|]).
  intros A0 B0 A1 B1 rest E. injection E as -> ->.
  repeat split.
Qed.
End Motions.

Lemma relativeMotions_count_and_first_witness :
  [(Identity4, Identity4); (Sample.quarterTurnZ, Sample.shift)] <> []
  /\ exists l,
       @EstimateHandEye.relativeMotions Sample.eigen
         [Identity4; Sample.quarterTurnZ] [Identity4; Sample.shift] = Some l
       /\ length (EstimateHandEye.rvecsArm l) = 1%nat
       /\ hd_error (EstimateHandEye.tvecsArm l)
          = Some (mkVector3d 1 2 3).
Proof.
  split; [discriminate|].
  destruct (@relativeMotions_count_and_first Sample.eigen
              [(Identity4, Identity4); (Sample.quarterTurnZ, Sample.shift)])
    as [l [R [LR [_ [_ [_ F]]]]]].
  - discriminate.
  - vm_compute. discriminate.
  - exists l. split; [exact R|]. split; [exact LR|].
    exact (proj1 (proj2 (F _ _ _ _ _ eq_refl))).
Defined.

Section Purity.
Context `{EigenLib} `{Collaborators}.

(** C8. The relative motions that estimateHandEye derives, and with them
    what it hands to the solver and gets back, are a function of the two pose
    vectors alone: run from any two states [g1] and [g2] of the globals on the
    same sequence, they are the same entries in the same order (and undefined
    together).  The function has no global among its results. *)
Theorem estimateHandEye_ignores_globals
    (g1 g2 : State) (baseToTip camToTag : list Affine3d) :
  option_map EstimateHandEye.motions
    (EstimateHandEye.estimateHandEye g1 baseToTip camToTag)
  = option_map EstimateHandEye.motions
      (EstimateHandEye.estimateHandEye g2 baseToTip camToTag)
  /\ option_map EstimateHandEye.resultAffine
       (EstimateHandEye.estimateHandEye g1 baseToTip camToTag)
     = option_map EstimateHandEye.resultAffine
         (EstimateHandEye.estimateHandEye g2 baseToTip camToTag)
  /\ option_map EstimateHandEye.motions
       (EstimateHandEye.estimateHandEye g1 baseToTip camToTag)
     = EstimateHandEye.relativeMotions baseToTip camToTag.
Proof.
  unfold EstimateHandEye.estimateHandEye.
  destruct (EstimateHandEye.relativeMotions baseToTip camToTag) as [l|];
    repeat split.
Qed.
End Purity.

(** ** The angle-axis vector of a rotation of zero angle *)

Lemma zero_times_finite (a x : float) :
  (a =? 0)%float = true -> is_finite x = true -> (a * x =? 0)%float = true.
Proof.
  unfold is_finite, is_nan, is_infinity.
  rewrite !FloatAxioms.eqb_spec, mul_spec, abs_spec.
  change (Prim2SF 0) with (S754_zero false).
  change (Prim2SF infinity) with (S754_infinity false).
  destruct (Prim2SF a) as [sa|sa| |sa ma ea];
    destruct (Prim2SF x) as [sx|sx| |sx mx ex];
    try destruct sa; try destruct sx;
    cbn; intros Ha Hx; try discriminate Ha; try discriminate Hx;
    reflexivity.
Qed.

Lemma zero_is_no_nan (x : float) : (x =? 0)%float = true -> is_nan x = false.
Proof.
  unfold is_nan. rewrite !FloatAxioms.eqb_spec.
  change (Prim2SF 0) with (S754_zero false).
  destruct (Prim2SF x) as [s|s| |s m e]; try destruct s; cbn; intros Hx;
    try discriminate Hx; reflexivity.
Qed.

Section ZeroAngle.
Context `{EigenLib}.

(** C5. For a rotation that Eigen's conversion gives the angle zero and a
    finite axis, as it does for the identity, eigenRotToEigenVector3dAngleAxis
    returns the zero vector: each component compares equal to zero and none
    is a NaN.  The function itself only multiplies; it divides by nothing. *)
Theorem zero_angle_gives_zero_vector (R : Matrix3d) :
  (angle (toAngleAxis R) =? 0)%float = true ->
  finiteVector (axis (toAngleAxis R)) = true ->
  zeroVector (eigenRotToEigenVector3dAngleAxis R) = true
  /\ hasNaN (eigenRotToEigenVector3dAngleAxis R) = false.
Proof.
  intros A F. unfold finiteVector in F.
  apply andb_prop in F as [F Fz]. apply andb_prop in F as [Fx Fy].
  pose proof (zero_times_finite _ _ A Fx) as Zx.
  pose proof (zero_times_finite _ _ A Fy) as Zy.
  pose proof (zero_times_finite _ _ A Fz) as Zz.
  unfold zeroVector, hasNaN, eigenRotToEigenVector3dAngleAxis, scale.
  cbn [vx vy vz]. split.
  - now rewrite Zx, Zy, Zz.
  - now rewrite !zero_is_no_nan.
Qed.
End ZeroAngle.

Lemma zero_angle_gives_zero_vector_witness :
  @eigenRotToEigenVector3dAngleAxis Sample.eigen Identity3 = mkVector3d 0 0 0
  /\ zeroVector (@eigenRotToEigenVector3dAngleAxis Sample.eigen Identity3)
     = true
  /\ hasNaN (@eigenRotToEigenVector3dAngleAxis Sample.eigen Identity3)
     = false.
Proof.
  split; [reflexivity|].
  apply (@zero_angle_gives_zero_vector Sample.eigen Identity3); reflexivity.
Defined.

(** ** The calibration file *)

Section Calibration.
Context `{EigenLib}.

(** C7. When the result file opens, writeCalibration writes these nine nodes
    and no other: handToEyeTF, the row [tx, ty, tz, qx, qy, qz, qw] of the
    translation and of the quaternion of the rotation; handToEyeTransform,
    the 4x4 matrix; the two costs and their difference; the termination
    type; the two step counts and their sum (the counts are those of a
    solver run: not negative, their sum an [int]). *)
Theorem writeCalibration_fields (resultAffine : Affine3d) (summary : Summary) :
  0 <= num_successful_steps summary ->
  0 <= num_unsuccessful_steps summary ->
  num_successful_steps summary + num_unsuccessful_steps summary <= INT_MAX ->
  writeCalibration resultAffine true summary
  = Some
      [ ("handToEyeTF",
          NMat (mkMat 1 7
                  [ m03 resultAffine; m13 resultAffine; m23 resultAffine;
                    qx (toQuaternion (rotation resultAffine));
                    qy (toQuaternion (rotation resultAffine));
                    qz (toQuaternion (rotation resultAffine));
                    qw (toQuaternion (rotation resultAffine)) ]));
        ("handToEyeTransform", NMat (eigen2cv resultAffine));
        ("initial_cost", NReal (initial_cost summary));
        ("final_cost", NReal (final_cost summary));
        ("change_cost",
          NReal (initial_cost summary - final_cost summary)%float);
        ("termination_type", NInt (termination_type summary));
        ("num_successful_iteration", NInt (num_successful_steps summary));
        ("num_unsuccessful_iteration", NInt (num_unsuccessful_steps summary));
        ("num_iteration",
          NInt (num_successful_steps summary
                + num_unsuccessful_steps summary)) ]%string.
Proof.
  intros S U B. unfold writeCalibration.
  rewrite int_add_small by lia.
  now rewrite (Z.add_comm (num_unsuccessful_steps summary)).
Qed.
End Calibration.

Lemma writeCalibration_fields_witness :
  map fst
    (match @writeCalibration Sample.eigen Sample.quarterTurnZ true
             (mkSummary 8 0.5 0 12 3) with
     | Some fs => fs
     | None => []
     end)
  = [ "handToEyeTF"; "handToEyeTransform"; "initial_cost"; "final_cost";
      "change_cost"; "termination_type"; "num_successful_iteration";
      "num_unsuccessful_iteration"; "num_iteration" ]%string
  /\ node "change_cost"
       (match @writeCalibration Sample.eigen Sample.quarterTurnZ true
                (mkSummary 8 0.5 0 12 3) with
        | Some fs => fs
        | None => []
        end) = Some (NReal 7.5)
  /\ node "num_iteration"
       (match @writeCalibration Sample.eigen Sample.quarterTurnZ true
                (mkSummary 8 0.5 0 12 3) with
        | Some fs => fs
        | None => []
        end) = Some (NInt 15).
Proof.
  rewrite (@writeCalibration_fields Sample.eigen Sample.quarterTurnZ
             (mkSummary 8 0.5 0 12 3)).
  - repeat split.
  - discriminate.
  - discriminate.
  - discriminate.
Defined.

(** ** The interactive session *)

Section SessionProperties.
Context `{EigenLib} `{Collaborators}.

(** C4. When either wait on the transform listener times out, addFrame leaves
    every global as it was, the six buffers, the two stored inverses and
    [firstTransform] included, and shows the warning of line 392. *)
Theorem addFrame_lookup_failure
    (CamLookup EELookup : option StampedTransform) (s : State) :
  CamLookup = None \/ EELookup = None ->
  exists shown,
    addFrame CamLookup EELookup s = Some (s, shown)
    /\ In (ROS_WARN "Fail to get one/both of needed TF transform") shown.
Proof.
  intros F. unfold addFrame.
  destruct EELookup as [ee|], CamLookup as [cam|];
    try (eexists; split; [reflexivity|]; apply in_or_app; right;
         apply in_or_app; right; now left).
  destruct F as [F|F]; discriminate F.
Qed.

(** C2. Asked to calibrate with fewer than five relative motions, the [q]
    branch shows the warning and goes on: the solver is called on the four
    vectors as they are, the empty ones included, its answer is reported and
    written, and the loop is left. *)
Theorem calibrate_with_few_motions
    (t : Turn) (s : State) (rv tv rf tf : list Vector3d) :
  pressed t = chr "q" \/ pressed t = chr "Q" ->
  rvecsArm s = Vec rv -> tvecsArm s = Vec tv ->
  rvecsFiducial s = Vec rf -> tvecsFiducial s = Vec tf ->
  (length rv < 5)%nat ->
  turn t s
  = Some (s,
          [ ROS_WARN "Number of calibration transform pairs < 5.";
            ROS_INFO "Node Quit";
            ROS_INFO "Calculating Calibration...";
            EstimateHandEyeScrew rv tv rf tf false;
            ReportCalibration (EETFname s) (cameraTFname s)
              (fst (estimateHandEyeScrew rv tv rf tf false));
            CalibrationFile
              (writeCalibration
                 (fst (estimateHandEyeScrew rv tv rf tf false))
                 (resultFileOpens t)
                 (snd (estimateHandEyeScrew rv tv rf tf false))) ],
          true).
Proof.
  intros K Erv Etv Erf Etf Few.
  assert (L : (Z.of_nat (length rv) <? 5) = true) by (apply Z.ltb_lt; lia).
  assert (C : calibrate (resultFileOpens t) s
              = Some
                  [ ROS_WARN "Number of calibration transform pairs < 5.";
                    ROS_INFO "Node Quit";
                    ROS_INFO "Calculating Calibration...";
                    EstimateHandEyeScrew rv tv rf tf false;
                    ReportCalibration (EETFname s) (cameraTFname s)
                      (fst (estimateHandEyeScrew rv tv rf tf false));
                    CalibrationFile
                      (writeCalibration
                         (fst (estimateHandEyeScrew rv tv rf tf false))
                         (resultFileOpens t)
                         (snd (estimateHandEyeScrew rv tv rf tf false))) ]).
  { unfold calibrate. rewrite Erv. cbv beta iota delta [elements].
    rewrite Etv. cbv beta iota. rewrite Erf. cbv beta iota.
    rewrite Etf. cbv beta iota. now rewrite L. }
  unfold turn. destruct K as [-> | ->].
  - change ((chr "q" =? chr "s") || (chr "q" =? chr "S")) with false.
    change ((chr "q" =? chr "d") || (chr "q" =? chr "D")) with false.
    change ((chr "q" =? chr "q") || (chr "q" =? chr "Q")) with true.
    cbv iota. now rewrite C.
  - change ((chr "Q" =? chr "s") || (chr "Q" =? chr "S")) with false.
    change ((chr "Q" =? chr "d") || (chr "Q" =? chr "D")) with false.
    change ((chr "Q" =? chr "q") || (chr "Q" =? chr "Q")) with true.
    cbv iota. now rewrite C.
Qed.

(** Undo on a store that holds more than the reference pair removes the last
    entry of each of the six buffers and says so. *)
Lemma deleteLastFrame_removes_last (s : State)
    (tA rA tF rF : list Vector3d) (b c : list Affine3d) :
  tvecsArm s = Vec tA -> rvecsArm s = Vec rA ->
  tvecsFiducial s = Vec tF -> rvecsFiducial s = Vec rF ->
  baseToTip s = Vec b -> cameraToTag s = Vec c ->
  tA <> [] -> rA <> [] -> tF <> [] -> rF <> [] -> b <> [] -> c <> [] ->
  deleteLastFrame s
  = Some (mkState (cameraTFname s) (ARTagTFname s) (EETFname s) (baseTFname s)
            (firstEEInverse s) (firstCamInverse s) (firstTransform s)
            (Vec (removelast tA)) (Vec (removelast rA))
            (Vec (removelast tF)) (Vec (removelast rF))
            (Vec (removelast b)) (Vec (removelast c)),
          [ROS_INFO
             ("Deleted last frame transformation. Number of Current "
              ++ "Transformations: "
              ++ dec (to_unsigned (Z.of_nat (length rA))))%string]).
Proof.
  destruct s. cbn [tvecsArm rvecsArm tvecsFiducial rvecsFiducial baseToTip
                   cameraToTag]. intros; subst.
  destruct tA, rA, tF, rF, b, c; try contradiction; reflexivity.
Qed.

(** Whatever undo does to the buffers, it writes none of the three variables
    that hold the reference. *)
Lemma deleteLastFrame_keeps_reference (s s' : State) (shown : list event) :
  deleteLastFrame s = Some (s', shown) ->
  firstTransform s' = firstTransform s
  /\ firstEEInverse s' = firstEEInverse s
  /\ firstCamInverse s' = firstCamInverse s.
Proof.
  unfold deleteLastFrame. intros D.
  destruct (size (rvecsArm s)); [|discriminate D].
  destruct (pop_back (rvecsArm s)); [|discriminate D].
  destruct (pop_back (tvecsArm s)); [|discriminate D].
  destruct (pop_back (rvecsFiducial s)); [|discriminate D].
  destruct (pop_back (tvecsFiducial s)); [|discriminate D].
  destruct (pop_back (baseToTip s)); [|discriminate D].
  destruct (pop_back (cameraToTag s)); [|discriminate D].
  injection D as <- _. repeat split.
Qed.

(** C9. Undo does not restore the reference.  From the start, one capture
    followed by undo ends in a state where [firstTransform] is still false and
    the two inverses are those of the removed pair, so that the motion
    computed for any later pair is relative to the removed one; the two pose
    buffers are empty again, and the four motion buffers, to which the
    capture had pushed nothing, have been popped while empty and hold no
    valid value: the sizes are not those of the data model.  In general undo
    writes none of the three reference variables. *)
Theorem undo_keeps_reference
    (camera ARTag EE base : string)
    (CamTransform EETransform : StampedTransform) :
  let eigenEE := transformTFToEigen EETransform in
  let eigenCam := transformTFToEigen CamTransform in
  let captured :=
    mkState camera ARTag EE base (inverse eigenEE) (inverse eigenCam) false
            (Vec []) (Vec []) (Vec []) (Vec []) (Vec [eigenEE])
            (Vec [eigenCam]) in
  let undone :=
    mkState camera ARTag EE base (inverse eigenEE) (inverse eigenCam) false
            Invalid Invalid Invalid Invalid (Vec []) (Vec []) in
  (exists shown,
     session [capture CamTransform EETransform]
             (startup camera ARTag EE base) = Some (captured, shown))
  /\ (exists shown,
        session [capture CamTransform EETransform; undo]
                (startup camera ARTag EE base) = Some (undone, shown))
  /\ consistent captured = true
  /\ consistent undone = false
  /\ (forall eigenEE' eigenCam',
        relativeToFirst undone eigenEE' eigenCam'
        = mkMotion
            (eigenRotToEigenVector3dAngleAxis
               (rotation (compose (inverse eigenEE) eigenEE')))
            (translation (compose (inverse eigenEE) eigenEE'))
            (eigenRotToEigenVector3dAngleAxis
               (rotation (compose (inverse eigenCam) eigenCam')))
            (translation (compose (inverse eigenCam) eigenCam')))
  /\ (forall s s' shown,
        deleteLastFrame s = Some (s', shown) ->
        firstTransform s' = firstTransform s
        /\ firstEEInverse s' = firstEEInverse s
        /\ firstCamInverse s' = firstCamInverse s).
Proof.
  cbv zeta. repeat split.
  - eexists. reflexivity.
  - eexists. reflexivity.
  - eapply deleteLastFrame_keeps_reference; eassumption.
  - eapply deleteLastFrame_keeps_reference; eassumption.
  - eapply deleteLastFrame_keeps_reference; eassumption.
Qed.
End SessionProperties.

(** C3, at the empty store.  Undo pressed before anything was captured pops
    six empty vectors: the message is shown, but none of the buffers is left
    as it was; each is a vector popped while empty, which no later statement
    may use.  So undo on the empty store is not the no-op that leaves the
    buffers unchanged. *)
Theorem deleteLastFrame_on_empty_store (camera ARTag EE base : string) :
  deleteLastFrame (startup camera ARTag EE base)
  = Some (mkState camera ARTag EE base staticAffine staticAffine true
                  Invalid Invalid Invalid Invalid Invalid Invalid,
          [ROS_INFO
             "Deleted last frame transformation. Number of Current Transformations: 0"])
  /\ (forall shown,
        deleteLastFrame (startup camera ARTag EE base)
        <> Some (startup camera ARTag EE base, shown)).
Proof.
  split.
  - reflexivity.
  - intros shown E. cbv [deleteLastFrame startup] in E. cbn in E.
    discriminate E.
Qed.

Lemma addFrame_lookup_failure_witness :
  exists shown,
    @addFrame Sample.eigen Sample.collaborators None (Some Sample.shift)
      (startup "/camera_2_link" "/camera_2/ar_marker_0"
               "/ee_fixed_link" "/base_link")
    = Some (startup "/camera_2_link" "/camera_2/ar_marker_0"
                    "/ee_fixed_link" "/base_link", shown)
    /\ In (ROS_WARN "Fail to get one/both of needed TF transform") shown.
Proof.
  apply (@addFrame_lookup_failure Sample.eigen Sample.collaborators).
  left. reflexivity.
Defined.

Lemma calibrate_with_few_motions_witness :
  exists shown,
    @turn Sample.eigen Sample.collaborators (@finalize Sample.collaborators)
      (startup "/camera_2_link" "/camera_2/ar_marker_0"
               "/ee_fixed_link" "/base_link")
    = Some (startup "/camera_2_link" "/camera_2/ar_marker_0"
                    "/ee_fixed_link" "/base_link",
            ROS_WARN "Number of calibration transform pairs < 5."
              :: ROS_INFO "Node Quit"
              :: ROS_INFO "Calculating Calibration..."
              :: EstimateHandEyeScrew [] [] [] [] false :: shown,
            true).
Proof.
  eexists.
  apply (@calibrate_with_few_motions Sample.eigen Sample.collaborators
           (@finalize Sample.collaborators)
           (startup "/camera_2_link" "/camera_2/ar_marker_0"
                    "/ee_fixed_link" "/base_link") [] [] [] []).
  - left. reflexivity.
  - reflexivity.
  - reflexivity.
  - reflexivity.
  - reflexivity.
  - cbn. lia.
Defined.

(** ** Sessions on sample poses *)

(** Two captures and one undo: the second pair is gone, the reference pair
    and the sizes of the data model are kept. *)
Example capture_capture_undo :
  option_map
    (fun r => (consistent (fst r), baseToTip (fst r), rvecsArm (fst r)))
    (@session Sample.eigen Sample.collaborators
       [ @capture Sample.collaborators Identity4 Identity4;
         @capture Sample.collaborators Sample.shift Sample.quarterTurnZ;
         @undo Sample.collaborators ]
       (startup "/camera_2_link" "/camera_2/ar_marker_0"
                "/ee_fixed_link" "/base_link"))
  = Some (true, Vec [Identity4], Vec []).
Proof. reflexivity. Qed.

(** The second capture stores the motion relative to the first pair. *)
Example second_capture_is_relative :
  option_map (fun r => (rvecsArm (fst r), tvecsArm (fst r)))
    (@session Sample.eigen Sample.collaborators
       [ @capture Sample.collaborators Identity4 Identity4;
         @capture Sample.collaborators Identity4 Sample.shift ]
       (startup "/camera_2_link" "/camera_2/ar_marker_0"
                "/ee_fixed_link" "/base_link"))
  = Some (Vec [mkVector3d 0 0 0], Vec [mkVector3d 0.5 0 (-2)]).
Proof. reflexivity. Qed.

(** After the only pair was undone, neither a further undo nor a further
    capture has a defined run: both use a motion buffer that was popped
    while empty. *)
Example nothing_defined_after_undone_first :
  @session Sample.eigen Sample.collaborators
    [ @capture Sample.collaborators Identity4 Identity4;
      @undo Sample.collaborators; @undo Sample.collaborators ]
    (startup "/camera_2_link" "/camera_2/ar_marker_0"
             "/ee_fixed_link" "/base_link") = None
  /\ @session Sample.eigen Sample.collaborators
       [ @capture Sample.collaborators Identity4 Identity4;
         @undo Sample.collaborators;
         @capture Sample.collaborators Sample.shift Sample.quarterTurnZ ]
       (startup "/camera_2_link" "/camera_2/ar_marker_0"
                "/ee_fixed_link" "/base_link") = None.
Proof. split; reflexivity. Qed.

(** * Further properties *)

(** ** The pair file beyond equal lengths *)

(** The writer's loop needs [t2] to be no shorter than [t1]. *)
Lemma writePairs_defined_le (t1 t2 : list Affine3d) :
  forall i, (length t1 <= length t2)%nat ->
            i + Z.of_nat (length t1) <= INT_MAX ->
            exists body, writePairs i t1 t2 = Some body.
Proof.
  revert t2. induction t1 as [|x t1 IH]; intros [|y t2] i L B;
    cbn [writePairs length] in *; try lia.
  - now exists [].
  - now exists [].
  - destruct (IH t2 (i + 1)) as [rest R]; [lia|lia|].
    assert (Hi : (i <? INT_MAX) = true) by (apply Z.ltb_lt; lia).
    rewrite Hi, R. eauto.
Qed.

Lemma writePairs_short (t1 t2 : list Affine3d) :
  forall i, (length t2 < length t1)%nat -> writePairs i t1 t2 = None.
Proof.
  revert t2. induction t1 as [|x t1 IH]; intros [|y t2] i L;
    cbn [writePairs length] in *; try lia; try reflexivity.
  rewrite (IH t2 (i + 1)) by lia. now destruct (i <? INT_MAX).
Qed.

(** What the reader's loop finds in a storage that the writer's loop made. *)
Lemma written_pairs_read_back
    (t1 t2 : list Affine3d) (body : FileStorage) (n : Z)
    (o1 o2 : list Affine3d) :
  writePairs 0 t1 t2 = Some body ->
  (length t1 <= length t2)%nat ->
  readPairs (length t1) 0 (("frameCount"%string, NInt n) :: body) o1 o2
  = Some (o1 ++ t1, o2 ++ firstn (length t1) t2).
Proof.
  intros W L.
  apply (readPairs_appends _ t1 (firstn (length t1) t2) 0 o1 o2).
  - rewrite length_firstn. lia.
  - intros k x E. rewrite readMatrix_after_frameCount by now left.
    unfold readMatrix.
    rewrite (proj1 (writePairs_node t1 t2 0 body k W) x E).
    apply cv2eigen_eigen2cv.
  - intros k y E. rewrite readMatrix_after_frameCount by now right.
    unfold readMatrix. rewrite nth_error_firstn in E.
    destruct (Nat.ltb_spec k (length t1)) as [K|K]; [|discriminate E].
    rewrite (proj2 (writePairs_node t1 t2 0 body k W) y K E).
    apply cv2eigen_eigen2cv.
Qed.

(** X3. When the second vector is longer than the first, the writer stores
    as many of its poses as the first vector has and drops the rest: read
    back into vectors [o1] and [o2], the file appends all of [t1] and the
    first [length t1] poses of [t2]. *)
Theorem pair_file_keeps_first_of_longer
    (t1 t2 o1 o2 : list Affine3d) :
  (length t1 <= length t2)%nat ->
  Z.of_nat (length t1) <= INT_MAX ->
  exists fs,
    writeTransformPairsToFile t1 t2 true = Some (0, Some fs)
    /\ readTransformPairsFromFile (Some fs) o1 o2
       = Some (0, o1 ++ t1, o2 ++ firstn (length t1) t2).
Proof.
  intros L B.
  destruct (writePairs_defined_le t1 t2 0 L B) as [body W].
  exists (("frameCount"%string, NInt (Z.of_nat (length t1))) :: body). split.
  - unfold writeTransformPairsToFile. rewrite W.
    now rewrite to_int_small by lia.
  - unfold readTransformPairsFromFile.
    rewrite frameCount_first, Nat2Z.id.
    now rewrite (written_pairs_read_back t1 t2 body _ o1 o2 W L).
Qed.

Lemma pair_file_keeps_first_of_longer_witness :
  exists fs,
    writeTransformPairsToFile [Sample.shift] [Identity4; Sample.quarterTurnZ]
                              true = Some (0, Some fs)
    /\ readTransformPairsFromFile (Some fs) [Zero4] [Zero4]
       = Some (0, [Zero4; Sample.shift], [Zero4; Identity4]).
Proof.
  apply (pair_file_keeps_first_of_longer
           [Sample.shift] [Identity4; Sample.quarterTurnZ] [Zero4] [Zero4]).
  - cbn. lia.
  - vm_compute. discriminate.
Defined.

(** X4. When the file opens and the second vector is shorter than the first,
    the writer has no defined run: its loop reads the second iterator past
    the end.  When the file does not open the loop is not entered: the
    return code is 1 and nothing is written, whatever the vectors. *)
Theorem writeTransformPairsToFile_shorter_second (t1 t2 : list Affine3d) :
  (length t2 < length t1)%nat ->
  writeTransformPairsToFile t1 t2 true = None
  /\ writeTransformPairsToFile t1 t2 false = Some (1, None).
Proof.
  intros L. unfold writeTransformPairsToFile.
  now rewrite (writePairs_short t1 t2 0 L).
Qed.

Lemma writeTransformPairsToFile_shorter_second_witness :
  writeTransformPairsToFile [Identity4; Sample.shift] [Identity4] true = None
  /\ writeTransformPairsToFile [Identity4; Sample.shift] [Identity4] false
     = Some (1, None).
Proof.
  apply (writeTransformPairsToFile_shorter_second
           [Identity4; Sample.shift] [Identity4]).
  cbn. lia.
Defined.

(** The names the writer's loop gives out from index [i] on are those of
    indices no smaller than [i], each once, two per pose of [t1]. *)
Lemma writePairs_names (t1 t2 : list Affine3d) :
  forall i body,
    writePairs i t1 t2 = Some body ->
    NoDup (map fst body)
    /\ (forall name, In name (map fst body) ->
          exists k, i <= k
                    /\ (name = nodeName "T1_" k \/ name = nodeName "T2_" k))
    /\ length body = (2 * length t1)%nat.
Proof.
  revert t2. induction t1 as [|x t1 IH]; intros [|y t2] i body W;
    cbn [writePairs] in W; try discriminate W.
  - injection W as <-. repeat split; [constructor|intros ? []].
  - injection W as <-. repeat split; [constructor|intros ? []].
  - destruct (i <? INT_MAX); [|discriminate W].
    destruct (writePairs (i + 1) t1 t2) as [rest|] eqn:R; [|discriminate W].
    injection W as <-. destruct (IH t2 (i + 1) rest R) as (N & I & L).
    cbn [map fst length]. repeat split.
    + constructor.
      * intros [E|K].
        -- pose proof (T1_not_T2 i i) as D. apply String.eqb_neq in D.
           now apply D.
        -- destruct (I _ K) as (k & Hk & [E|E]).
           ++ apply nodeName_inj in E. lia.
           ++ pose proof (T1_not_T2 i k) as D. apply String.eqb_neq in D.
              now apply D.
      * constructor; [|exact N]. intros K.
        destruct (I _ K) as (k & Hk & [E|E]).
        -- pose proof (T2_not_T1 i k) as D. apply String.eqb_neq in D.
           now apply D.
        -- apply nodeName_inj in E. lia.
    + intros name [<-|[<-|K]].
      * exists i. split; [lia|now left].
      * exists i. split; [lia|now right].
      * destruct (I _ K) as (k & Hk & E). exists k. split; [lia|exact E].
    + rewrite L. lia.
Qed.

(** X5. The file the writer leaves names every node once: the count under
    frameCount, then T1_k and T2_k for each k below the number of poses of
    the first vector and nothing else, so that a lookup by name is never
    ambiguous. *)
Theorem written_pair_file_names
    (t1 t2 : list Affine3d) (code : Z) (fs : FileStorage) :
  writeTransformPairsToFile t1 t2 true = Some (code, Some fs) ->
  code = 0
  /\ NoDup (map fst fs)
  /\ length fs = (1 + 2 * length t1)%nat
  /\ node "frameCount" fs = Some (NInt (to_int (Z.of_nat (length t1))))
  /\ forall name, In name (map fst fs) ->
       name = "frameCount"%string
       \/ exists k, 0 <= k
                    /\ (name = nodeName "T1_" k \/ name = nodeName "T2_" k).
Proof.
  unfold writeTransformPairsToFile. intros W.
  destruct (writePairs 0 t1 t2) as [body|] eqn:B; [|discriminate W].
  injection W as <- <-. destruct (writePairs_names t1 t2 0 body B) as (N & I & L).
  cbn [map fst length]. repeat split.
  - constructor; [|exact N]. intros K.
    destruct (I _ K) as (k & _ & [E|E]); unfold nodeName in E; cbn in E;
      discriminate E.
  - now rewrite L.
  - intros name [<-|K]; [now left|right]. now apply I.
Qed.

Lemma written_pair_file_names_witness :
  exists fs,
    writeTransformPairsToFile [Identity4; Sample.shift]
                              [Sample.quarterTurnZ; Identity4] true
    = Some (0, Some fs)
    /\ NoDup (map fst fs)
    /\ length fs = 5%nat.
Proof.
  eexists. split; [reflexivity|].
  destruct (written_pair_file_names
              [Identity4; Sample.shift] [Sample.quarterTurnZ; Identity4]
              0 _ eq_refl) as (_ & N & L & _).
  split; [exact N|exact L].
Defined.

(** X6. A storage that opens but has no frameCount node, or has a count that
    is not positive, reads as no pair at all: the reader returns 0, the code
    of success, and leaves both vectors as they were. *)
Theorem readTransformPairsFromFile_no_count
    (fs : FileStorage) (t1 t2 : list Affine3d) :
  node "frameCount" fs = None
  \/ (exists c, node "frameCount" fs = Some (NInt c) /\ c <= 0) ->
  readTransformPairsFromFile (Some fs) t1 t2 = Some (0, t1, t2).
Proof.
  unfold readTransformPairsFromFile, readInt.
  intros [-> | (c & -> & C)]; [reflexivity|].
  destruct c as [|p|p]; try reflexivity. lia.
Qed.

Lemma readTransformPairsFromFile_no_count_witness :
  readTransformPairsFromFile
    (Some [("T1_0"%string, NMat (eigen2cv Sample.shift))])
    [Identity4] [Identity4]
  = Some (0, [Identity4], [Identity4])
  /\ readTransformPairsFromFile
       (Some [("frameCount"%string, NInt (-2))]) [Identity4] [Identity4]
     = Some (0, [Identity4], [Identity4]).
Proof.
  split.
  - apply (readTransformPairsFromFile_no_count
             [("T1_0"%string, NMat (eigen2cv Sample.shift))]).
    left. reflexivity.
  - apply (readTransformPairsFromFile_no_count
             [("frameCount"%string, NInt (-2))]).
    right. exists (-2). split; [reflexivity|lia].
Defined.

(** The reader's loop has no defined run once an index it reaches has no 4x4
    matrix under T1 or under T2. *)
Lemma readPairs_missing (fs : FileStorage) (k : Z) :
  readMatrix (nodeName "T1_" k) fs = None
  \/ readMatrix (nodeName "T2_" k) fs = None ->
  forall n i t1 t2,
    i <= k < i + Z.of_nat n -> readPairs n i fs t1 t2 = None.
Proof.
  intros M. induction n as [|n IH]; intros i t1 t2 K; [lia|].
  cbn [readPairs].
  destruct (Z.eq_dec i k) as [->|D].
  - destruct M as [-> | M]; [reflexivity|].
    rewrite M. now destruct (readMatrix (nodeName "T1_" k) fs).
  - destruct (readMatrix (nodeName "T1_" i) fs); [|reflexivity].
    destruct (readMatrix (nodeName "T2_" i) fs); [|reflexivity].
    apply IH. lia.
Qed.

(** X7. A storage whose count promises more pairs than it holds cannot be
    read: when some index below frameCount has no 4x4 matrix under T1 or
    under T2, the reader has no defined result: the conversion to a 4x4
    Eigen matrix is applied to something that is not one. *)
Theorem readTransformPairsFromFile_missing_matrix
    (fs : FileStorage) (frameCount k : Z) (t1 t2 : list Affine3d) :
  readInt "frameCount" fs = Some frameCount ->
  0 <= k < frameCount ->
  readMatrix (nodeName "T1_" k) fs = None
  \/ readMatrix (nodeName "T2_" k) fs = None ->
  readTransformPairsFromFile (Some fs) t1 t2 = None.
Proof.
  intros C K M. unfold readTransformPairsFromFile. rewrite C.
  rewrite (readPairs_missing fs k M); [reflexivity|]. lia.
Qed.

Lemma readTransformPairsFromFile_missing_matrix_witness :
  readTransformPairsFromFile
    (Some [ ("frameCount", NInt 2);
            ("T1_0", NMat (eigen2cv Sample.shift));
            ("T2_0", NMat (eigen2cv Identity4));
            ("T1_1", NMat (eigen2cv Identity4)) ]%string) [] []
  = None.
Proof.
  apply (readTransformPairsFromFile_missing_matrix _ 2 1).
  - reflexivity.
  - lia.
  - right. reflexivity.
Defined.

(** ** estimateHandEye on vectors of different lengths, and the load branch *)

Section BatchEdges.
Context `{EigenLib} `{Collaborators}.

Lemma loop_short (t1 t2 : list Affine3d) :
  forall i l, (length t2 < length t1)%nat ->
              EstimateHandEye.loop i t1 t2 l = None.
Proof.
  revert t2. induction t1 as [|x t1 IH]; intros [|y t2] i l L;
    cbn [EstimateHandEye.loop length] in *; try lia; try reflexivity.
  destruct (EstimateHandEye.body x y l) as [l'|]; [|reflexivity].
  destruct (i <? INT_MAX); [|reflexivity]. apply IH. lia.
Qed.

Lemma loop_firstn (t1 t2 : list Affine3d) :
  forall i l,
    EstimateHandEye.loop i t1 t2 l
    = EstimateHandEye.loop i t1 (firstn (length t1) t2) l.
Proof.
  revert t2. induction t1 as [|x t1 IH]; intros [|y t2] i l;
    cbn [EstimateHandEye.loop length firstn]; try reflexivity.
  destruct (EstimateHandEye.body x y l) as [l'|]; [|reflexivity].
  destruct (i <? INT_MAX); [|reflexivity]. apply IH.
Qed.

(** X8. estimateHandEye walks camToTag only as far as baseToTip reaches:
    poses of camToTag beyond the length of baseToTip have no effect on the
    result, and a camToTag shorter than baseToTip leaves the function without
    a defined run (the second iterator is read past the end). *)
Theorem estimateHandEye_lengths
    (g : State) (baseToTip camToTag : list Affine3d) :
  EstimateHandEye.estimateHandEye g baseToTip camToTag
  = EstimateHandEye.estimateHandEye g baseToTip
      (firstn (length baseToTip) camToTag)
  /\ ((length camToTag < length baseToTip)%nat ->
      EstimateHandEye.estimateHandEye g baseToTip camToTag = None).
Proof.
  unfold EstimateHandEye.estimateHandEye, EstimateHandEye.relativeMotions.
  split.
  - now rewrite loop_firstn.
  - intros L. now rewrite loop_short.
Qed.


(** X16. A pose pair added at the end of a sequence adds one entry at the
    end of each of the four vectors, its motion relative to the first pair,
    and changes none of the entries before it. *)
Theorem relativeMotions_grow
    (p0 p : Affine3d * Affine3d) (ps : list (Affine3d * Affine3d)) :
  Z.of_nat (length (p0 :: ps ++ [p])) <= INT_MAX ->
  exists l l',
    EstimateHandEye.relativeMotions (map fst (p0 :: ps)) (map snd (p0 :: ps))
    = Some l
    /\ EstimateHandEye.relativeMotions (map fst (p0 :: ps ++ [p]))
                                       (map snd (p0 :: ps ++ [p]))
       = Some l'
    /\ EstimateHandEye.rvecsArm l'
       = EstimateHandEye.rvecsArm l
         ++ [eigenRotToEigenVector3dAngleAxis
               (rotation (compose (inverse (fst p0)) (fst p)))]
    /\ EstimateHandEye.tvecsArm l'
       = EstimateHandEye.tvecsArm l
         ++ [translation (compose (inverse (fst p0)) (fst p))]
    /\ EstimateHandEye.rvecsFiducial l'
       = EstimateHandEye.rvecsFiducial l
         ++ [eigenRotToEigenVector3dAngleAxis
               (rotation (compose (inverse (snd p0)) (snd p)))]
    /\ EstimateHandEye.tvecsFiducial l'
       = EstimateHandEye.tvecsFiducial l
         ++ [translation (compose (inverse (snd p0)) (snd p))].
Proof.
  intros B. cbn [length] in B. rewrite length_app in B. cbn [length] in B.
  eexists. eexists. split; [apply relativeMotions_pairs; cbn [length]; lia|].
  split.
  - apply (relativeMotions_pairs p0 (ps ++ [p])).
    cbn [length]. rewrite length_app. cbn [length]. lia.
  - cbn [EstimateHandEye.rvecsArm EstimateHandEye.tvecsArm
         EstimateHandEye.rvecsFiducial EstimateHandEye.tvecsFiducial].
    rewrite !map_app. repeat split.
Qed.
End BatchEdges.


Lemma relativeMotions_grow_witness :
  exists l l',
    @EstimateHandEye.relativeMotions Sample.eigen [Identity4] [Identity4]
    = Some l
    /\ @EstimateHandEye.relativeMotions Sample.eigen
         [Identity4; Sample.quarterTurnZ] [Identity4; Sample.shift] = Some l'
    /\ EstimateHandEye.tvecsArm l'
       = EstimateHandEye.tvecsArm l ++ [mkVector3d 1 2 3].
Proof.
  destruct (@relativeMotions_grow Sample.eigen (Identity4, Identity4)
              (Sample.quarterTurnZ, Sample.shift) [])
    as (l & l' & R & R' & _ & T & _).
  - vm_compute. discriminate.
  - exists l, l'. split; [exact R|]. split; [exact R'|exact T].
Defined.

(** ** What a session keeps *)

Lemma removelast_map {A B : Type} (f : A -> B) (l : list A) :
  removelast (map f l) = map f (removelast l).
Proof.
  induction l as [|a l IH]; [reflexivity|].
  destruct l as [|b l]; [reflexivity|].
  cbn [map removelast] in *. now rewrite IH.
Qed.

Lemma pop_back_push {A : Type} (l : list A) (x : A) :
  pop_back (Vec (l ++ [x])) = Some (Vec l).
Proof.
  unfold pop_back. destruct (l ++ [x]) as [|a r] eqn:E.
  - destruct l; discriminate E.
  - now rewrite <- E, removelast_last.
Qed.

Section SessionInvariants.
Context `{EigenLib} `{Collaborators}.

Lemma startup_tracked (camera ARTag EE base : string) :
  tracked [] (startup camera ARTag EE base).
Proof. repeat split. Qed.

(** A capture whose two lookups succeed extends what is tracked by the new
    pair. *)
Lemma addFrame_tracked (ps : list (Affine3d * Affine3d)) (s : State)
    (CamTransform EETransform : StampedTransform) :
  tracked ps s ->
  exists s' shown,
    addFrame (Some CamTransform) (Some EETransform) s = Some (s', shown)
    /\ tracked (ps ++ [(transformTFToEigen EETransform,
                        transformTFToEigen CamTransform)]) s'.
Proof.
  destruct s. unfold tracked, addFrame.
  cbn [baseToTip cameraToTag firstTransform firstEEInverse firstCamInverse
       tvecsArm rvecsArm tvecsFiducial rvecsFiducial].
  intros (B & C & M). subst.
  destruct ps as [|p0 rest].
  - destruct M as (F & tA & rA & tF & rF). subst.
    cbn [push_back map app]. eexists. eexists. split; [reflexivity|].
    cbn [baseToTip cameraToTag firstTransform firstEEInverse firstCamInverse
         tvecsArm rvecsArm tvecsFiducial rvecsFiducial map fst snd].
    repeat split.
  - destruct M as (F & E & Cm & tA & rA & tF & rF). subst.
    cbn [push_back]. eexists. eexists. split; [reflexivity|].
    cbn [baseToTip cameraToTag firstTransform firstEEInverse firstCamInverse
         tvecsArm rvecsArm tvecsFiducial rvecsFiducial app].
    cbn [map]. rewrite !map_app. repeat split.
Qed.

(** An undo takes the last pair off what is tracked when at least two pairs
    are stored, and otherwise pops a motion buffer that was empty. *)
Lemma deleteLastFrame_tracked (ps : list (Affine3d * Affine3d))
    (s s' : State) (shown : list event) :
  tracked ps s ->
  deleteLastFrame s = Some (s', shown) ->
  ((2 <= length ps)%nat /\ tracked (removelast ps) s')
  \/ ((length ps < 2)%nat /\ rvecsArm s' = Invalid).
Proof.
  destruct s. unfold tracked, deleteLastFrame.
  cbn [baseToTip cameraToTag firstTransform firstEEInverse firstCamInverse
       tvecsArm rvecsArm tvecsFiducial rvecsFiducial
       cameraTFname ARTagTFname EETFname baseTFname].
  intros (B & C & M) D. subst.
  destruct ps as [|p0 [|p1 rest]].
  - destruct M as (F & tA & rA & tF & rF). subst.
    cbn in D. injection D as <- _. right. split; [cbn; lia|reflexivity].
  - destruct M as (F & E & Cm & tA & rA & tF & rF). subst.
    cbn in D. injection D as <- _. right. split; [cbn; lia|reflexivity].
  - destruct M as (F & E & Cm & tA & rA & tF & rF). subst.
    cbn [size map pop_back] in D. injection D as <- _. left.
    split; [cbn [length]; lia|].
    cbn [baseToTip cameraToTag firstTransform firstEEInverse firstCamInverse
         tvecsArm rvecsArm tvecsFiducial rvecsFiducial].
    change (removelast (p0 :: p1 :: rest)) with (p0 :: removelast (p1 :: rest)).
    cbv beta iota. cbn [map]. rewrite <- !removelast_map. repeat split.
Qed.

(** On what is tracked, undo always has a defined run. *)
Lemma deleteLastFrame_defined (ps : list (Affine3d * Affine3d)) (s : State) :
  tracked ps s -> exists s' shown, deleteLastFrame s = Some (s', shown).
Proof.
  intros (B & C & M). unfold deleteLastFrame. rewrite B, C.
  destruct ps as [|p0 rest].
  - destruct M as (_ & -> & -> & -> & ->). cbn. eauto.
  - destruct M as (_ & _ & _ & -> & -> & -> & ->).
    cbn [size]. unfold pop_back.
    destruct (map _ rest), (map _ rest), (map _ rest), (map _ rest),
      (map fst (p0 :: rest)), (map snd (p0 :: rest)); eauto.
Qed.

Lemma addFrame_trackedOrBroken
    (CamLookup EELookup : option StampedTransform)
    (s s' : State) (shown : list event) :
  trackedOrBroken s ->
  addFrame CamLookup EELookup s = Some (s', shown) ->
  trackedOrBroken s'.
Proof.
  intros J A.
  destruct EELookup as [ee|], CamLookup as [cam|];
    try (cbn in A; injection A as <- _; exact J).
  destruct J as [[ps T] | I].
  - destruct (addFrame_tracked ps s cam ee T) as (s1 & sh & A1 & T1).
    rewrite A1 in A. injection A as <- _. left. eauto.
  - right. destruct s. cbn [rvecsArm] in I. subst. unfold addFrame in A.
    cbn [baseToTip cameraToTag firstTransform rvecsArm] in A.
    destruct (push_back baseToTip0 _); [|discriminate A].
    destruct (push_back cameraToTag0 _); [|discriminate A].
    destruct firstTransform0; [|discriminate A].
    now injection A as <- _.
Qed.

Lemma deleteLastFrame_trackedOrBroken (s s' : State) (shown : list event) :
  trackedOrBroken s ->
  deleteLastFrame s = Some (s', shown) ->
  trackedOrBroken s'.
Proof.
  intros [[ps T] | I] D.
  - destruct (deleteLastFrame_tracked ps s s' shown T D) as [[_ T'] | [_ I']].
    + left. eauto.
    + now right.
  - unfold deleteLastFrame in D. rewrite I in D. discriminate D.
Qed.

Lemma turn_trackedOrBroken (t : Turn) (s s' : State)
    (shown : list event) (left_loop : bool) :
  trackedOrBroken s ->
  turn t s = Some (s', shown, left_loop) ->
  trackedOrBroken s'.
Proof.
  intros J T. unfold turn in T.
  destruct ((pressed t =? chr "s") || (pressed t =? chr "S")).
  - destruct (addFrame (CamLookup t) (EELookup t) s) as [[s1 sh]|] eqn:A;
      [|discriminate T].
    cbn [fst snd] in T.
    destruct (elements (baseToTip s1)); [|discriminate T].
    destruct (elements (cameraToTag s1)); [|discriminate T].
    destruct (writeTransformPairsToFile _ _ _); [|discriminate T].
    injection T as <- _ _. eapply addFrame_trackedOrBroken; eassumption.
  - destruct ((pressed t =? chr "d") || (pressed t =? chr "D")).
    + destruct (deleteLastFrame s) as [[s1 sh]|] eqn:D; [|discriminate T].
      injection T as <- _ _.
      eapply deleteLastFrame_trackedOrBroken; eassumption.
    + destruct ((pressed t =? chr "q") || (pressed t =? chr "Q")).
      * destruct (calibrate (resultFileOpens t) s); [|discriminate T].
        now injection T as <- _ _.
      * now injection T as <- _ _.
Qed.

Lemma session_trackedOrBroken (ts : list Turn) :
  forall s s' shown,
    trackedOrBroken s ->
    session ts s = Some (s', shown) ->
    trackedOrBroken s'.
Proof.
  induction ts as [|t ts IH]; intros s s' shown J S; cbn [session] in S.
  - now injection S as <- _.
  - destruct (turn t s) as [[[s1 sh] b]|] eqn:T; [|discriminate S].
    pose proof (turn_trackedOrBroken t s s1 sh b J T) as J1.
    cbn [fst snd] in S. destruct b.
    + now injection S as <- _.
    + destruct (session ts s1) as [[s2 sh2]|] eqn:S2; [|discriminate S].
      injection S as <- _. eapply IH; eassumption.
Qed.

(** A state with valid sizes that is tracked or broken is tracked. *)
Lemma consistent_tracked (s : State) :
  trackedOrBroken s -> consistent s = true -> exists ps, tracked ps s.
Proof.
  intros [T | I] C; [exact T|].
  unfold consistent in C. rewrite I in C. cbn [size] in C.
  destruct (size (baseToTip s)), (size (cameraToTag s)); discriminate C.
Qed.

(** What is tracked is what estimateHandEye derives from the stored pairs. *)
Lemma tracked_relativeMotions (ps : list (Affine3d * Affine3d)) (s : State) :
  tracked ps s ->
  Z.of_nat (length ps) <= INT_MAX ->
  exists l,
    EstimateHandEye.relativeMotions (map fst ps) (map snd ps) = Some l
    /\ rvecsArm s = Vec (EstimateHandEye.rvecsArm l)
    /\ tvecsArm s = Vec (EstimateHandEye.tvecsArm l)
    /\ rvecsFiducial s = Vec (EstimateHandEye.rvecsFiducial l)
    /\ tvecsFiducial s = Vec (EstimateHandEye.tvecsFiducial l).
Proof.
  intros (_ & _ & M) B. destruct ps as [|p0 rest].
  - destruct M as (_ & tA & rA & tF & rF).
    exists EstimateHandEye.entry. repeat split; assumption.
  - destruct M as (_ & _ & _ & tA & rA & tF & rF).
    eexists. split; [now apply relativeMotions_pairs|].
    repeat split; assumption.
Qed.
End SessionInvariants.

Section SessionFurther.
Context `{EigenLib} `{Collaborators}.

(** X1. The interactive buffers and the batch derivation agree.  Whatever
    keys a session from the start went through, if it ends with the sizes of
    the data model then the four motion buffers hold exactly what
    estimateHandEye derives from the two pose buffers, which are equally
    long. *)
Theorem session_buffers_follow_estimateHandEye
    (ts : list Turn) (camera ARTag EE base : string)
    (s : State) (shown : list event) (b c : list Affine3d) :
  session ts (startup camera ARTag EE base) = Some (s, shown) ->
  consistent s = true ->
  baseToTip s = Vec b ->
  cameraToTag s = Vec c ->
  Z.of_nat (length b) <= INT_MAX ->
  length c = length b
  /\ exists l,
       EstimateHandEye.relativeMotions b c = Some l
       /\ rvecsArm s = Vec (EstimateHandEye.rvecsArm l)
       /\ tvecsArm s = Vec (EstimateHandEye.tvecsArm l)
       /\ rvecsFiducial s = Vec (EstimateHandEye.rvecsFiducial l)
       /\ tvecsFiducial s = Vec (EstimateHandEye.tvecsFiducial l).
Proof.
  intros S C Eb Ec B.
  assert (J : trackedOrBroken s).
  { eapply session_trackedOrBroken; [|exact S].
    left. exists []. apply startup_tracked. }
  destruct (consistent_tracked s J C) as [ps T].
  pose proof T as (Tb & Tc & _).
  rewrite Eb in Tb. rewrite Ec in Tc. injection Tb as ->. injection Tc as ->.
  rewrite length_map in B. split; [now rewrite !length_map|].
  now apply tracked_relativeMotions.
Qed.


(** A turn other than undo keeps what is tracked tracked. *)
Lemma turn_tracked_no_undo (t : Turn) (ps : list (Affine3d * Affine3d))
    (s s' : State) (shown : list event) (left_loop : bool) :
  isUndo t = false ->
  tracked ps s ->
  turn t s = Some (s', shown, left_loop) ->
  exists ps', tracked ps' s'.
Proof.
  unfold isUndo, turn. intros U T R. rewrite U in R.
  destruct ((pressed t =? chr "s") || (pressed t =? chr "S")).
  - destruct (addFrame (CamLookup t) (EELookup t) s) as [[s1 sh]|] eqn:A;
      [|discriminate R].
    cbn [fst snd] in R.
    destruct (elements (baseToTip s1)); [|discriminate R].
    destruct (elements (cameraToTag s1)); [|discriminate R].
    destruct (writeTransformPairsToFile _ _ _); [|discriminate R].
    injection R as <- _ _.
    destruct (EELookup t) as [ee|], (CamLookup t) as [cam|];
      try (cbn in A; injection A as <- _; eauto).
    destruct (addFrame_tracked ps s cam ee T) as (s2 & sh2 & A2 & T2).
    rewrite A2 in A. injection A as <- _. eauto.
  - destruct ((pressed t =? chr "q") || (pressed t =? chr "Q")).
    + destruct (calibrate (resultFileOpens t) s); [|discriminate R].
      injection R as <- _ _. eauto.
    + injection R as <- _ _. eauto.
Qed.

Lemma tracked_consistent (ps : list (Affine3d * Affine3d)) (s : State) :
  tracked ps s -> consistent s = true.
Proof.
  intros (B & C & M). unfold consistent. rewrite B, C.
  destruct ps as [|p0 rest].
  - destruct M as (_ & -> & -> & -> & ->). reflexivity.
  - destruct M as (_ & _ & _ & -> & -> & -> & ->).
    cbn [size map length]. rewrite !length_map, !Nat.eqb_refl. reflexivity.
Qed.

(** X17. Without undo the sizes never leave the data model: a session from
    the start in which the undo key is never pressed, whatever else happens
    in it (failed lookups, other keys, files that do not open), ends with
    two pose buffers of one size and four motion buffers holding one entry
    fewer each, or with all six empty. *)
Theorem session_without_undo_is_consistent
    (ts : list Turn) (camera ARTag EE base : string)
    (s : State) (shown : list event) :
  forallb (fun t => negb (isUndo t)) ts = true ->
  session ts (startup camera ARTag EE base) = Some (s, shown) ->
  consistent s = true.
Proof.
  intros U S.
  assert (G : forall ts s0 s1 sh,
             forallb (fun t => negb (isUndo t)) ts = true ->
             (exists ps, tracked ps s0) ->
             session ts s0 = Some (s1, sh) ->
             exists ps, tracked ps s1).
  { clear. induction ts as [|t ts IH]; intros s0 s1 sh U [ps T] S;
      cbn [session forallb] in *.
    - injection S as <- _. eauto.
    - apply andb_prop in U as [Ut U]. apply negb_true_iff in Ut.
      destruct (turn t s0) as [[[s2 sh2] b]|] eqn:R; [|discriminate S].
      pose proof (turn_tracked_no_undo t ps s0 s2 sh2 b Ut T R) as T2.
      cbn [fst snd] in S. destruct b.
      + injection S as <- _. exact T2.
      + destruct (session ts s2) as [[s3 sh3]|] eqn:S3; [|discriminate S].
        injection S as <- _. eapply IH; eassumption. }
  destruct (G ts _ s shown U (ex_intro _ [] (startup_tracked _ _ _ _)) S)
    as [ps T].
  eapply tracked_consistent, T.
Qed.
End SessionFurther.

Lemma session_buffers_follow_estimateHandEye_witness :
  length [Identity4; Sample.shift] = length [Identity4; Sample.quarterTurnZ]
  /\ exists l,
       @EstimateHandEye.relativeMotions Sample.eigen
         [Identity4; Sample.quarterTurnZ] [Identity4; Sample.shift] = Some l
       /\ rvecsArm Sample.afterTwoCaptures
          = Vec (EstimateHandEye.rvecsArm l)
       /\ tvecsArm Sample.afterTwoCaptures
          = Vec (EstimateHandEye.tvecsArm l)
       /\ rvecsFiducial Sample.afterTwoCaptures
          = Vec (EstimateHandEye.rvecsFiducial l)
       /\ tvecsFiducial Sample.afterTwoCaptures
          = Vec (EstimateHandEye.tvecsFiducial l).
Proof.
  apply (@session_buffers_follow_estimateHandEye
           Sample.eigen Sample.collaborators Sample.twoCaptures
           "/camera_2_link" "/camera_2/ar_marker_0" "/ee_fixed_link"
           "/base_link" Sample.afterTwoCaptures Sample.shownTwoCaptures).
  - reflexivity.
  - reflexivity.
  - reflexivity.
  - reflexivity.
  - vm_compute. discriminate.
Defined.


Lemma session_without_undo_is_consistent_witness :
  consistent Sample.afterTwoCaptures = true.
Proof.
  apply (@session_without_undo_is_consistent
           Sample.eigen Sample.collaborators Sample.twoCaptures
           "/camera_2_link" "/camera_2/ar_marker_0" "/ee_fixed_link"
           "/base_link" Sample.afterTwoCaptures Sample.shownTwoCaptures).
  - reflexivity.
  - reflexivity.
Defined.

Section SessionSteps.
Context `{EigenLib} `{Collaborators}.

Lemma keepsSetup_refl (s : State) : keepsSetup s s.
Proof. unfold keepsSetup. repeat split; auto. Qed.

Lemma keepsSetup_trans (s1 s2 s3 : State) :
  keepsSetup s1 s2 -> keepsSetup s2 s3 -> keepsSetup s1 s3.
Proof.
  unfold keepsSetup.
  intros (a1 & b1 & c1 & d1 & r1) (a2 & b2 & c2 & d2 & r2).
  split; [congruence|]. split; [congruence|]. split; [congruence|].
  split; [congruence|].
  intros F. destruct (r1 F) as (f1 & e1 & g1).
  destruct (r2 f1) as (f2 & e2 & g2). repeat split; congruence.
Qed.

Lemma addFrame_keepsSetup (CamLookup EELookup : option StampedTransform)
    (s s' : State) (shown : list event) :
  addFrame CamLookup EELookup s = Some (s', shown) -> keepsSetup s s'.
Proof.
  unfold addFrame. intros A.
  destruct EELookup as [ee|], CamLookup as [cam|];
    try (injection A as <- _; apply keepsSetup_refl).
  destruct (push_back (baseToTip s) _); [|discriminate A].
  destruct (push_back (cameraToTag s) _); [|discriminate A].
  destruct (firstTransform s) eqn:F.
  - injection A as <- _. unfold keepsSetup. rewrite F.
    repeat split; discriminate.
  - destruct (push_back (rvecsArm s) _); [|discriminate A].
    destruct (push_back (tvecsArm s) _); [|discriminate A].
    destruct (push_back (rvecsFiducial s) _); [|discriminate A].
    destruct (push_back (tvecsFiducial s) _); [|discriminate A].
    injection A as <- _. unfold keepsSetup. repeat split; auto.
Qed.

Lemma deleteLastFrame_keepsSetup (s s' : State) (shown : list event) :
  deleteLastFrame s = Some (s', shown) -> keepsSetup s s'.
Proof.
  unfold deleteLastFrame. intros D.
  destruct (size (rvecsArm s)); [|discriminate D].
  destruct (pop_back (rvecsArm s)); [|discriminate D].
  destruct (pop_back (tvecsArm s)); [|discriminate D].
  destruct (pop_back (rvecsFiducial s)); [|discriminate D].
  destruct (pop_back (tvecsFiducial s)); [|discriminate D].
  destruct (pop_back (baseToTip s)); [|discriminate D].
  destruct (pop_back (cameraToTag s)); [|discriminate D].
  injection D as <- _. unfold keepsSetup. repeat split; auto.
Qed.

Lemma turn_keepsSetup (t : Turn) (s s' : State)
    (shown : list event) (left_loop : bool) :
  turn t s = Some (s', shown, left_loop) -> keepsSetup s s'.
Proof.
  unfold turn. intros T.
  destruct ((pressed t =? chr "s") || (pressed t =? chr "S")).
  - destruct (addFrame (CamLookup t) (EELookup t) s) as [[s1 sh]|] eqn:A;
      [|discriminate T].
    cbn [fst snd] in T.
    destruct (elements (baseToTip s1)); [|discriminate T].
    destruct (elements (cameraToTag s1)); [|discriminate T].
    destruct (writeTransformPairsToFile _ _ _); [|discriminate T].
    injection T as <- _ _. eapply addFrame_keepsSetup, A.
  - destruct ((pressed t =? chr "d") || (pressed t =? chr "D")).
    + destruct (deleteLastFrame s) as [[s1 sh]|] eqn:D; [|discriminate T].
      injection T as <- _ _. eapply deleteLastFrame_keepsSetup, D.
    + destruct ((pressed t =? chr "q") || (pressed t =? chr "Q")).
      * destruct (calibrate (resultFileOpens t) s); [|discriminate T].
        injection T as <- _ _. apply keepsSetup_refl.
      * injection T as <- _ _. apply keepsSetup_refl.
Qed.

(** X10. The reference is set once per run of the program.  Through any
    session the four frame names stay as they are, and from a state where
    [firstTransform] is false on, no key press sets it back to true or changes
    either stored inverse: every later motion is relative to the pair that
    was captured first, whatever was undone since. *)
Theorem session_keeps_setup (ts : list Turn) :
  forall (s s' : State) (shown : list event),
    session ts s = Some (s', shown) ->
    cameraTFname s' = cameraTFname s
    /\ ARTagTFname s' = ARTagTFname s
    /\ EETFname s' = EETFname s
    /\ baseTFname s' = baseTFname s
    /\ (firstTransform s = false ->
        firstTransform s' = false
        /\ firstEEInverse s' = firstEEInverse s
        /\ firstCamInverse s' = firstCamInverse s).
Proof.
  change (forall s s' shown,
            session ts s = Some (s', shown) -> keepsSetup s s').
  induction ts as [|t ts IH]; intros s s' shown S; cbn [session] in S.
  - injection S as <- _. apply keepsSetup_refl.
  - destruct (turn t s) as [[[s1 sh] b]|] eqn:T; [|discriminate S].
    pose proof (turn_keepsSetup t s s1 sh b T) as K. cbn [fst snd] in S.
    destruct b.
    + now injection S as <- _.
    + destruct (session ts s1) as [[s2 sh2]|] eqn:S2; [|discriminate S].
      injection S as <- _. eapply keepsSetup_trans; [exact K|].
      eapply IH, S2.
Qed.

(** X11. Once the reference is set, a capture followed at once by undo gives
    back the globals exactly as they were: the pair and its motion are pushed
    and popped again, nothing else moves.  (The first capture of a session is
    the one this does not hold for.) *)
Theorem capture_then_undo_restores
    (s : State) (CamTransform EETransform : StampedTransform)
    (tA rA tF rF : list Vector3d) (b c : list Affine3d) :
  firstTransform s = false ->
  tvecsArm s = Vec tA -> rvecsArm s = Vec rA ->
  tvecsFiducial s = Vec tF -> rvecsFiducial s = Vec rF ->
  baseToTip s = Vec b -> cameraToTag s = Vec c ->
  exists s1 shown1 shown2,
    addFrame (Some CamTransform) (Some EETransform) s = Some (s1, shown1)
    /\ deleteLastFrame s1 = Some (s, shown2).
Proof.
  destruct s.
  cbn [firstTransform tvecsArm rvecsArm tvecsFiducial rvecsFiducial
       baseToTip cameraToTag].
  intros; subst. unfold addFrame.
  cbn [firstTransform tvecsArm rvecsArm tvecsFiducial rvecsFiducial
       baseToTip cameraToTag push_back
       cameraTFname ARTagTFname EETFname baseTFname
       firstEEInverse firstCamInverse].
  eexists. eexists. eexists. split; [reflexivity|].
  unfold deleteLastFrame.
  cbn [firstTransform tvecsArm rvecsArm tvecsFiducial rvecsFiducial
       baseToTip cameraToTag size
       cameraTFname ARTagTFname EETFname baseTFname
       firstEEInverse firstCamInverse].
  rewrite !pop_back_push. reflexivity.
Qed.

(** X12. With five relative motions or more the [q] branch shows no warning:
    it announces the calculation, calls the solver on the four vectors,
    reports and writes the answer, and leaves the loop with the globals
    untouched. *)
Theorem calibrate_with_enough_motions
    (t : Turn) (s : State) (rv tv rf tf : list Vector3d) :
  isQuit t = true ->
  rvecsArm s = Vec rv -> tvecsArm s = Vec tv ->
  rvecsFiducial s = Vec rf -> tvecsFiducial s = Vec tf ->
  (5 <= length rv)%nat ->
  turn t s
  = Some (s,
          [ ROS_INFO "Calculating Calibration...";
            EstimateHandEyeScrew rv tv rf tf false;
            ReportCalibration (EETFname s) (cameraTFname s)
              (fst (estimateHandEyeScrew rv tv rf tf false));
            CalibrationFile
              (writeCalibration
                 (fst (estimateHandEyeScrew rv tv rf tf false))
                 (resultFileOpens t)
                 (snd (estimateHandEyeScrew rv tv rf tf false))) ],
          true).
Proof.
  intros Q Erv Etv Erf Etf Many.
  assert (L : (Z.of_nat (length rv) <? 5) = false) by (apply Z.ltb_ge; lia).
  assert (C : calibrate (resultFileOpens t) s
              = Some
                  [ ROS_INFO "Calculating Calibration...";
                    EstimateHandEyeScrew rv tv rf tf false;
                    ReportCalibration (EETFname s) (cameraTFname s)
                      (fst (estimateHandEyeScrew rv tv rf tf false));
                    CalibrationFile
                      (writeCalibration
                         (fst (estimateHandEyeScrew rv tv rf tf false))
                         (resultFileOpens t)
                         (snd (estimateHandEyeScrew rv tv rf tf false))) ]).
  { unfold calibrate. rewrite Erv. cbv beta iota delta [elements].
    rewrite Etv. cbv beta iota. rewrite Erf. cbv beta iota.
    rewrite Etf. cbv beta iota. now rewrite L. }
  unfold isQuit in Q. unfold turn. rewrite C.
  apply orb_true_iff in Q as [Q|Q]; apply Z.eqb_eq in Q; rewrite Q;
    reflexivity.
Qed.

(** A turn on the quit key leaves the loop whenever it has a defined run. *)
Lemma quit_leaves_loop (t : Turn) (s s' : State)
    (shown : list event) (left_loop : bool) :
  isQuit t = true ->
  turn t s = Some (s', shown, left_loop) -> left_loop = true.
Proof.
  unfold isQuit, turn. intros Q T.
  apply orb_true_iff in Q as [Q|Q]; apply Z.eqb_eq in Q; rewrite Q in T;
    cbn [orb] in T;
    [ change ((chr "q" =? chr "s") || (chr "q" =? chr "S")) with false in T;
      change ((chr "q" =? chr "d") || (chr "q" =? chr "D")) with false in T;
      change ((chr "q" =? chr "q") || (chr "q" =? chr "Q")) with true in T
    | change ((chr "Q" =? chr "s") || (chr "Q" =? chr "S")) with false in T;
      change ((chr "Q" =? chr "d") || (chr "Q" =? chr "D")) with false in T;
      change ((chr "Q" =? chr "q") || (chr "Q" =? chr "Q")) with true in T ];
    cbv iota in T;
    (destruct (calibrate (resultFileOpens t) s); [|discriminate T]);
    now injection T as _ _ <-.
Qed.

(** X13. Nothing is processed after the quit key: the keys that follow it in
    a session change neither the globals the session ends with nor what it
    shows. *)
Theorem session_stops_at_quit (ts : list Turn) (t : Turn) (rest : list Turn) :
  isQuit t = true ->
  forall s, session (ts ++ t :: rest) s = session (ts ++ [t]) s.
Proof.
  intros Q. induction ts as [|a ts IH]; intros s; cbn [app session].
  - destruct (turn t s) as [[[s1 sh] b]|] eqn:T; [|reflexivity].
    rewrite (quit_leaves_loop t s s1 sh b Q T). reflexivity.
  - destruct (turn a s) as [[[s1 sh] b]|]; [|reflexivity].
    cbn [fst snd]. destruct b; [reflexivity|]. now rewrite IH.
Qed.

Lemma other_key_does_nothing (t : Turn) (s : State) :
  isCommand t = false -> turn t s = Some (s, [], false).
Proof.
  unfold isCommand, turn. intros C.
  repeat (apply orb_false_iff in C as [C ?]).
  repeat match goal with E : _ = false |- _ => rewrite E; clear E end.
  reflexivity.
Qed.

(** X14. Keys other than s, S, d, D, q and Q do nothing: taking them out of
    a session changes neither the globals it ends with nor what it shows. *)
Theorem session_skips_other_keys (ts : list Turn) :
  forall s, session (filter isCommand ts) s = session ts s.
Proof.
  induction ts as [|t ts IH]; intros s; cbn [filter]; [reflexivity|].
  destruct (isCommand t) eqn:C; cbn [session].
  - destruct (turn t s) as [[[s1 sh] b]|]; [|reflexivity].
    cbn [fst snd]. destruct b; [reflexivity|]. now rewrite IH.
  - rewrite (other_key_does_nothing t s C). cbn [fst snd app].
    rewrite IH. now destruct (session ts s) as [[s2 sh2]|].
Qed.
End SessionSteps.


Lemma session_keeps_setup_witness :
  exists s' shown,
    @session Sample.eigen Sample.collaborators
      [ @undo Sample.collaborators;
        @capture Sample.collaborators Sample.quarterTurnZ Sample.shift ]
      Sample.afterTwoCaptures = Some (s', shown)
    /\ firstTransform s' = false
    /\ firstEEInverse s' = firstEEInverse Sample.afterTwoCaptures
    /\ firstCamInverse s' = firstCamInverse Sample.afterTwoCaptures.
Proof.
  pose proof (@session_keeps_setup Sample.eigen Sample.collaborators
                [ @undo Sample.collaborators;
                  @capture Sample.collaborators
                    Sample.quarterTurnZ Sample.shift ]
                Sample.afterTwoCaptures) as K.
  destruct (@session Sample.eigen Sample.collaborators
              [ @undo Sample.collaborators;
                @capture Sample.collaborators
                  Sample.quarterTurnZ Sample.shift ]
              Sample.afterTwoCaptures) as [[s' sh]|] eqn:S;
    [|vm_compute in S; discriminate S].
  exists s', sh. split; [reflexivity|].
  destruct (K s' sh eq_refl) as (_ & _ & _ & _ & R).
  exact (R eq_refl).
Defined.

Lemma capture_then_undo_restores_witness :
  exists s1 shown1 shown2,
    @addFrame Sample.eigen Sample.collaborators
      (Some Sample.quarterTurnZ) (Some Sample.shift) Sample.afterTwoCaptures
    = Some (s1, shown1)
    /\ deleteLastFrame s1 = Some (Sample.afterTwoCaptures, shown2).
Proof.
  eapply (@capture_then_undo_restores Sample.eigen Sample.collaborators
            Sample.afterTwoCaptures Sample.quarterTurnZ Sample.shift);
    reflexivity.
Defined.

Lemma calibrate_with_enough_motions_witness :
  exists shown,
    @turn Sample.eigen Sample.collaborators (@finalize Sample.collaborators)
      (mkState "/camera_2_link" "/camera_2/ar_marker_0"
               "/ee_fixed_link" "/base_link" Identity4 Identity4 false
               (Vec (repeat (mkVector3d 0 0 1) 5))
               (Vec (repeat (mkVector3d 0 0 0) 5))
               (Vec (repeat (mkVector3d 0 0 1) 5))
               (Vec (repeat (mkVector3d 0 0 0) 5))
               (Vec (repeat Identity4 6)) (Vec (repeat Identity4 6)))
    = Some (mkState "/camera_2_link" "/camera_2/ar_marker_0"
                    "/ee_fixed_link" "/base_link" Identity4 Identity4 false
                    (Vec (repeat (mkVector3d 0 0 1) 5))
                    (Vec (repeat (mkVector3d 0 0 0) 5))
                    (Vec (repeat (mkVector3d 0 0 1) 5))
                    (Vec (repeat (mkVector3d 0 0 0) 5))
                    (Vec (repeat Identity4 6)) (Vec (repeat Identity4 6)),
            ROS_INFO "Calculating Calibration..." :: shown, true).
Proof.
  eexists.
  apply (@calibrate_with_enough_motions Sample.eigen Sample.collaborators
           (@finalize Sample.collaborators)).
  - reflexivity.
  - reflexivity.
  - reflexivity.
  - reflexivity.
  - reflexivity.
  - cbn. lia.
Defined.

Lemma session_stops_at_quit_witness :
  @session Sample.eigen Sample.collaborators
    (Sample.twoCaptures
     ++ @finalize Sample.collaborators :: [@undo Sample.collaborators])
    Sample.atStart
  = @session Sample.eigen Sample.collaborators
      (Sample.twoCaptures ++ [@finalize Sample.collaborators])
      Sample.atStart.
Proof.
  apply (@session_stops_at_quit Sample.eigen Sample.collaborators).
  reflexivity.
Defined.


Section UndoSafety.
Context `{EigenLib} `{Collaborators}.

(** X18. When undo is safe.  In a state that a session from the start ends
    in with the sizes of the data model, undo has a defined run; what it
    leaves has the sizes of the data model exactly when at least two pairs
    were stored, and then the two pose buffers have lost their last pose and
    nothing else.  With one pair stored, or none, undo leaves motion buffers
    that were popped while empty. *)
Theorem undo_safe_from_two_pairs
    (ts : list Turn) (camera ARTag EE base : string)
    (s : State) (shown : list event) (b c : list Affine3d) :
  session ts (startup camera ARTag EE base) = Some (s, shown) ->
  consistent s = true ->
  baseToTip s = Vec b ->
  cameraToTag s = Vec c ->
  exists s' shown',
    deleteLastFrame s = Some (s', shown')
    /\ (consistent s' = true <-> (2 <= length b)%nat)
    /\ ((2 <= length b)%nat ->
        baseToTip s' = Vec (removelast b)
        /\ cameraToTag s' = Vec (removelast c))
    /\ ((length b < 2)%nat -> rvecsArm s' = Invalid).
Proof.
  intros S C Eb Ec.
  assert (J : trackedOrBroken s).
  { eapply session_trackedOrBroken; [|exact S].
    left. exists []. apply startup_tracked. }
  destruct (consistent_tracked s J C) as [ps T].
  pose proof T as (Tb & Tc & _).
  rewrite Eb in Tb. rewrite Ec in Tc. injection Tb as ->. injection Tc as ->.
  destruct (deleteLastFrame_defined ps s T) as (s' & sh & D).
  exists s', sh. split; [exact D|]. rewrite length_map.
  destruct (deleteLastFrame_tracked ps s s' sh T D) as [[L T'] | [L I]].
  - split; [|split].
    + split; [intros _; exact L|intros _; eapply tracked_consistent, T'].
    + intros _. destruct T' as (B' & C' & _).
      now rewrite B', C', !removelast_map.
    + lia.
  - split; [|split].
    + split; [|lia]. intros K. unfold consistent in K. rewrite I in K.
      cbn [size] in K.
      destruct (size (baseToTip s')), (size (cameraToTag s')); discriminate K.
    + lia.
    + intros _. exact I.
Qed.
End UndoSafety.

Lemma undo_safe_from_two_pairs_witness :
  exists s' shown',
    deleteLastFrame Sample.afterTwoCaptures = Some (s', shown')
    /\ consistent s' = true
    /\ baseToTip s' = Vec [Identity4]
    /\ cameraToTag s' = Vec [Identity4].
Proof.
  destruct (@undo_safe_from_two_pairs
              Sample.eigen Sample.collaborators Sample.twoCaptures
              "/camera_2_link" "/camera_2/ar_marker_0" "/ee_fixed_link"
              "/base_link" Sample.afterTwoCaptures Sample.shownTwoCaptures
              [Identity4; Sample.quarterTurnZ] [Identity4; Sample.shift]
              eq_refl eq_refl eq_refl eq_refl)
    as (s' & sh & D & K & P & _).
  exists s', sh. split; [exact D|]. split.
  - apply K. cbn. lia.
  - apply P. cbn. lia.
Defined.
